(** * DARIA-TOPSIS assessment pipeline: the driver [main_daria.py]

    The repository's source is the driver [main] of [main_daria.py].  It
    builds, year by year, a table of TOPSIS preference scores, hands the
    table to the DARIA routines, and blends the mean score with the DARIA
    variability into a final score and ranking.

    Scores are floating point numbers in the source; here they are real
    numbers ([R]), so rounding is not modelled.  A numpy array is a buffer
    in a store; a pandas [DataFrame] is an index together with labelled
    columns, each column naming the buffer that holds its values, so that
    two frames (or a frame and an array obtained with [to_numpy]) can share
    a buffer.

    The routines imported from [pyrepo_mcda] and from [daria] are not part
    of [main_daria.py]; the driver is stated over them as section
    variables.  Reading of CSV files is a variable too; writing of CSV
    files and the chart of the annual ranks leave the tables untouched and
    are left out of [main].  The two plotting helpers are treated on their
    own, as the calls they make to the plotting libraries. *)

From Stdlib Require Import Reals Lra Ascii.
From stdpp Require Import base option list strings.

(** ** Numeric vectors *)

Abbreviation vec := (list R).
Abbreviation matrix := (list vec).

Definition Rsum (l : vec) : R := foldr Rplus 0%R l.

(** The arithmetic mean of the entries of [l]. *)
Definition mean (l : vec) : R := (Rsum l / INR (length l))%R.

(** ** The store of array buffers *)

Abbreviation addr := nat.
Abbreviation heap := (list vec).

(** A new buffer is placed after all the existing ones. *)
Definition alloc (h : heap) (v : vec) : heap * addr := (h ++ [v], length h).

(** ** pandas.DataFrame *)

Record DataFrame := mkDataFrame {
  index : list string;
  columns : list (string * addr) }.

(** [pd.DataFrame(index = idx)] *)
Definition new_DataFrame (idx : list string) : DataFrame := mkDataFrame idx [].

Fixpoint set_column (cols : list (string * addr)) (key : string) (a : addr)
  : list (string * addr) :=
  match cols with
  | [] => [(key, a)]
  | (k, b) :: rest =>
      if decide (k = key) then (k, a) :: rest
      else (k, b) :: set_column rest key a
  end.

(** [df[key] = values]: the values are copied into a buffer of their own,
    which becomes the column [key] (a new last column, or the replacement of
    the column of that label).  pandas raises [ValueError] when the number
    of values is not the length of the index: [None].  (A frame whose index
    is empty takes the index of the values instead of raising; the frames
    of [main] are indexed by the countries, and for an empty list of
    countries [None] stands for a run that is not followed further.) *)
Definition setitem (h : heap) (df : DataFrame) (key : string) (values : vec)
  : option (heap * DataFrame) :=
  if decide (length values = length (index df)) then
    let '(h', a) := alloc h values in
    Some (h', mkDataFrame (index df) (set_column (columns df) key a))
  else None.

(** [df[key].to_numpy()]: the array of a column is a view of the column's
    buffer, not a copy.  [KeyError] is [None]. *)
Definition getitem (df : DataFrame) (key : string) : option addr :=
  snd <$> find (fun c => bool_decide (c.1 = key)) (columns df).

(** The values of the columns, in column order.  For [df.T.to_numpy()] these
    are the rows of the array. *)
Definition column_values (h : heap) (df : DataFrame) : option matrix :=
  mapM (fun c => h !! c.2) (columns df).

(** The table a frame denotes in a store: its labelled columns of values,
    when every column names a buffer of the store. *)
Definition read_columns (h : heap) (cols : list (string * addr))
  : option (list (string * vec)) :=
  mapM (fun c => v ← h !! c.2; Some (c.1, v)) cols.

Definition read_frame (h : heap) (df : DataFrame) : option (list (string * vec)) :=
  read_columns h (columns df).

(** [copy.deepcopy(df)]: every column is copied into a new buffer. *)
Fixpoint copy_columns (h : heap) (cols : list (string * addr))
  : option (heap * list (string * addr)) :=
  match cols with
  | [] => Some (h, [])
  | (k, a) :: rest =>
      v ← h !! a;
      let '(h1, a') := alloc h v in
      '(h2, rest') ← copy_columns h1 rest;
      Some (h2, (k, a') :: rest')
  end.

Definition deepcopy (h : heap) (df : DataFrame) : option (heap * DataFrame) :=
  '(h', cols) ← copy_columns h (columns df);
  Some (h', mkDataFrame (index df) cols).

(** Row [i] of a table given by its columns. *)
Definition row (cols : matrix) (i : nat) : vec := map (fun c => nth i c 0%R) cols.

(** [df.mean(axis = 1)]: for every label of the index, the mean of the
    entries of that row over all the columns.  (pandas leaves out missing
    values; a real number is never missing.) *)
Definition mean_axis1 (h : heap) (df : DataFrame) : option vec :=
  cols ← column_values h df;
  Some (map (fun i => mean (row cols i)) (seq 0 (length (index df)))).

(** ** The imported routines *)

(** The object [daria = DARIA()].  The two analysis routines, like the
    routines of [pyrepo_mcda], are read as functions of the values of their
    arguments.  [_update_efficiency] is handed arrays that are views of
    columns of a frame: it is given by the values of the array it returns
    together with what it leaves in the three arrays it received, so that a
    routine that works in place is covered. *)
Record DARIA := {
  _entropy : matrix -> vec;
  _direction : matrix -> Z -> list string * vec;
  _update_efficiency : vec -> vec -> vec -> vec * (vec * vec * vec) }.

(** Python's [for x in l: body], the body failing with [None]. *)
Fixpoint for_each {St A : Type} (body : St -> A -> option St) (st : St) (l : list A)
  : option St :=
  match l with
  | [] => Some st
  | x :: l' => st' ← body st x; for_each body st' l'
  end.

(** The tables [main] keeps, and the store of their buffers. *)
Record State := mkState {
  bufs : heap;
  preferences_t : DataFrame;
  rankings_t : DataFrame;
  summary_corrs : DataFrame;
  df_varia_fin : DataFrame;
  results_final : DataFrame }.

(** [str_years = [str(y) for y in range(2020, 2023)]] *)
Definition str_years : list string := ["2020"; "2021"; "2022"]%string.

(** [types = np.array([1, 1, -1, -1, -1, -1, -1, -1, -1])] *)
Definition types : list Z := [1; 1; -1; -1; -1; -1; -1; -1; -1]%Z.

Definition path : string := "DATASET".

Section Main.

(** [list(pd.read_csv('DATASET/country_names.csv')['Symbol'])] *)
Variable country_names : list string.
(** [pd.read_csv(pathfile, index_col = 'Country').to_numpy()] *)
Variable read_csv : string -> matrix.
(** [mcda_weights.critic_weighting] *)
Variable critic_weighting : matrix -> vec.
(** [topsis = TOPSIS(normalization_method = norms.max_normalization)] *)
Variable topsis : matrix -> vec -> list Z -> vec.
(** [rank_preferences(pref, reverse)] *)
Variable rank_preferences : vec -> bool -> list Z.
Variable daria : DARIA.

(** The preference vector of one year, lines 137-151. *)
Definition pref_of (year : string) : vec :=
  let file := ("dataset_" +:+ year +:+ ".csv")%string in
  let pathfile := (path +:+ "/" +:+ file)%string in
  let matrix := read_csv pathfile in
  let weights := critic_weighting matrix in
  topsis matrix weights types.

(** The body of the loop over the years, lines 136-156. *)
Definition period (st : State) (year : string) : option State :=
  (* pref_t = topsis(matrix, weights, types) *)
  let pref_t := pref_of year in
  (* rank_t = rank_preferences(pref_t, reverse = True) *)
  let rank_t := rank_preferences pref_t true in
  (* preferences_t[year] = pref_t *)
  '(h1, p) ← setitem (bufs st) (preferences_t st) year pref_t;
  (* rankings_t[year] = rank_t *)
  '(h2, r) ← setitem h1 (rankings_t st) year (IZR <$> rank_t);
  (* summary_corrs['TOPSIS ' + str(year)] = rank_t *)
  '(h3, s) ← setitem h2 (summary_corrs st) ("TOPSIS " +:+ year)%string (IZR <$> rank_t);
  Some (mkState h3 p r s (df_varia_fin st) (results_final st)).

(** Lines 124-134: the empty tables.  [df_varia_fin] and [results_final]
    are made later, at lines 210 and 262, where the model sets them anew. *)
Definition init : State :=
  let e := new_DataFrame country_names in
  mkState [] e e e e e.

(** Lines 136-156. *)
Definition annual (years : list string) : option State :=
  for_each period init years.

(** Lines 210-238: the DARIA analysis of the table of preferences, with
    [met = 'topsis'] and [type = 1].  The table [df_results] of lines
    229-236 is only written to a file and is left out, and with it the
    [ValueError] of line 234 for a list [dir_list] of another length than
    the table; [rename_axis] names the index.  So a run of the source that
    gets through these lines gives [Some] here, not the other way round. *)
Definition variability (st : State) : option State :=
  (* df_varia_fin = pd.DataFrame(index = country_names) *)
  let df_varia_fin := new_DataFrame country_names in
  (* df = preferences_t.T; matrix = df.to_numpy() *)
  matrix ← column_values (bufs st) (preferences_t st);
  (* var = daria._entropy(matrix) *)
  let var := daria.(_entropy) matrix in
  (* dir_list, dir_class = daria._direction(matrix, type) *)
  let '(dir_list, dir_class) := daria.(_direction) matrix 1%Z in
  (* df_varia_fin[met.upper()] = list(var) *)
  '(h1, d1) ← setitem (bufs st) df_varia_fin "TOPSIS" var;
  (* df_varia_fin[met.upper() + ' dir'] = list(dir_class) *)
  '(h2, d2) ← setitem h1 d1 "TOPSIS dir" dir_class;
  Some (mkState h2 (preferences_t st) (rankings_t st) (summary_corrs st)
                d2 (results_final st)).

(** Lines 242-251: the arguments of the update.  [S_] (the array [S] of
    the source) is a new array; [G] and [dir] are views of the columns of
    [G_df]. *)
Definition arguments (st : State) : option (heap * addr * addr * addr) :=
  (* G_df = copy.deepcopy(df_varia_fin) *)
  '(h1, G_df) ← deepcopy (bufs st) (df_varia_fin st);
  (* S_df = copy.deepcopy(preferences_t) *)
  '(h2, S_df) ← deepcopy h1 (preferences_t st);
  (* S = S_df.mean(axis = 1).to_numpy() *)
  S_values ← mean_axis1 h2 S_df;
  let '(h3, S_) := alloc h2 S_values in
  (* G = G_df[met.upper()].to_numpy() *)
  G ← getitem G_df "TOPSIS";
  (* dir = G_df[met.upper() + ' dir'].to_numpy() *)
  dir ← getitem G_df "TOPSIS dir";
  Some (h3, S_, G, dir).

(** Lines 253-266: the update, which may write into its three arrays, the
    ranking of the updated scores, and the tables of results. *)
Definition update_and_rank (st : State) (h3 : heap) (S_ G dir : addr)
  : option State :=
  S_v ← h3 !! S_;
  G_v ← h3 !! G;
  dir_v ← h3 !! dir;
  (* final_S = daria._update_efficiency(S, G, dir) *)
  let '(final_S, (S', G', dir')) := daria.(_update_efficiency) S_v G_v dir_v in
  let h4 := <[dir := dir']> (<[G := G']> (<[S_ := S']> h3)) in
  (* rank = rank_preferences(final_S, reverse = True) *)
  let rank := rank_preferences final_S true in
  (* summary_corrs['DARIA-TOPSIS'] = rank *)
  '(h5, s) ← setitem h4 (summary_corrs st) "DARIA-TOPSIS" (IZR <$> rank);
  (* results_final = pd.DataFrame(index = country_names) *)
  let results_final := new_DataFrame country_names in
  (* results_final['DARIA-TOPSIS pref'] = final_S *)
  '(h6, r1) ← setitem h5 results_final "DARIA-TOPSIS pref" final_S;
  (* results_final['DARIA-TOPSIS rank'] = rank *)
  '(h7, r2) ← setitem h6 r1 "DARIA-TOPSIS rank" (IZR <$> rank);
  Some (mkState h7 (preferences_t st) (rankings_t st) s (df_varia_fin st) r2).

(** Lines 242-266: the final scores and ranking. *)
Definition final (st : State) : option State :=
  '(h3, S_, G, dir) ← arguments st;
  update_and_rank st h3 S_ G dir.

(** Lines 112-266: the tables of [main].  The files written and the chart
    of lines 163-202 are left out, with what they can raise: a run of the
    source that reaches line 266 gives [Some] here with the tables it has
    then, not the other way round. *)
Definition main : option State :=
  st1 ← annual str_years;
  st2 ← variability st1;
  final st2.

End Main.

(** * Properties of the store and of the frame operations *)

(** [extends h h']: every buffer of [h] is a buffer of [h'], with the values
    it had in [h]. *)
Definition extends (h h' : heap) : Prop :=
  forall (a : addr) (v : vec), h !! a = Some v -> h' !! a = Some v.

(** Every column names a buffer past the first [n] ones. *)
Definition columns_from (n : nat) (cols : list (string * addr)) : Prop :=
  Forall (fun c => n <= c.2) cols.

Lemma extends_refl (h : heap) : extends h h.
Proof. intros a v Ha. exact Ha. Qed.

Lemma extends_trans (h1 h2 h3 : heap) :
  extends h1 h2 -> extends h2 h3 -> extends h1 h3.
Proof. intros H12 H23 a v Ha. apply H23, H12, Ha. Qed.

Lemma extends_length (h h' : heap) : extends h h' -> length h <= length h'.
Proof.
  intros He. destruct h as [|v0 h0 _] using rev_ind; [simpl; lia|].
  assert (Hl : (h0 ++ [v0]) !! length h0 = Some v0) by (by apply list_lookup_middle).
  apply He, lookup_lt_Some in Hl. rewrite length_app. simpl. lia.
Qed.

Lemma alloc_extends (h h' : heap) (v : vec) (a : addr) :
  alloc h v = (h', a) -> extends h h' /\ a = length h /\ h' !! a = Some v.
Proof.
  unfold alloc. intros [= <- <-]. split_and!; [|done|by apply list_lookup_middle].
  intros a v' Ha. by apply lookup_app_l_Some.
Qed.

(** Writing to a buffer that [h] does not have keeps [h] extended. *)
Lemma insert_extends (h h' : heap) (a : addr) (v : vec) :
  extends h h' -> length h <= a -> extends h (<[a := v]> h').
Proof.
  intros He Hlen b w Hb.
  assert (b < length h) by (by eapply lookup_lt_Some).
  rewrite list_lookup_insert_ne; [by apply He | lia].
Qed.

Lemma setitem_extends (h h' : heap) (df df' : DataFrame) (key : string) (v : vec) :
  setitem h df key v = Some (h', df') ->
  extends h h' /\ index df' = index df /\ length v = length (index df) /\
  columns df' = set_column (columns df) key (length h) /\ h' !! length h = Some v.
Proof.
  unfold setitem. case_decide as Hlen; [|done].
  destruct (alloc h v) as [h1 a] eqn:Ha. intros [= <- <-].
  apply alloc_extends in Ha as (He & -> & Hv). by split_and!.
Qed.

Lemma setitem_Some (h : heap) (df : DataFrame) (key : string) (v : vec) :
  length v = length (index df) -> is_Some (setitem h df key v).
Proof. intros Hlen. unfold setitem. rewrite decide_True by done. by eexists. Qed.

Lemma read_columns_cons (h : heap) (k : string) (a : addr)
      (cols : list (string * addr)) (t : list (string * vec)) :
  read_columns h ((k, a) :: cols) = Some t <->
  exists v t', h !! a = Some v /\ read_columns h cols = Some t' /\ t = (k, v) :: t'.
Proof.
  unfold read_columns. rewrite mapM_Some. split.
  - intros Hf. inversion Hf as [|? [k' v] ? t' Hx Hrest]; subst. simpl in Hx.
    apply bind_Some in Hx as (w & Hw & [= <- <-]).
    exists w, t'. split_and!; [done| by apply mapM_Some |done].
  - intros (v & t' & Hv & Ht & ->). constructor; [simpl; by rewrite Hv|].
    by apply mapM_Some.
Qed.

Lemma read_columns_extends (h h' : heap) (cols : list (string * addr))
      (t : list (string * vec)) :
  extends h h' -> read_columns h cols = Some t -> read_columns h' cols = Some t.
Proof.
  intros He. revert t. induction cols as [|[k a] cols IH]; intros t; [done|].
  rewrite !read_columns_cons. intros (v & t' & Hv & Ht & ->).
  exists v, t'. split_and!; [by apply He|by apply IH|done].
Qed.

Lemma read_columns_labels (h : heap) (cols : list (string * addr))
      (t : list (string * vec)) :
  read_columns h cols = Some t -> cols.*1 = t.*1.
Proof.
  revert t. induction cols as [|[k a] cols IH]; intros t.
  - by intros [= <-].
  - rewrite read_columns_cons. intros (v & t' & _ & Ht & ->). simpl. f_equal. by apply IH.
Qed.

Lemma column_values_read (h : heap) (df : DataFrame) (t : list (string * vec)) :
  read_frame h df = Some t -> column_values h df = Some t.*2.
Proof.
  unfold read_frame, column_values. generalize (columns df).
  intros cols. revert t. induction cols as [|[k a] cols IH]; intros t.
  - by intros [= <-].
  - rewrite read_columns_cons. intros (v & t' & Hv & Ht & ->).
    apply mapM_Some. constructor; [done|]. apply mapM_Some. by apply IH.
Qed.

(** The deep copy of a readable table keeps the store it started from, puts
    every column in a buffer that did not exist before, and denotes the same
    table. *)
Lemma copy_columns_spec (cols : list (string * addr)) :
  forall (h h' : heap) (cols' : list (string * addr)) (t : list (string * vec)),
  read_columns h cols = Some t ->
  copy_columns h cols = Some (h', cols') ->
  extends h h' /\ columns_from (length h) cols' /\ read_columns h' cols' = Some t.
Proof.
  induction cols as [|[k a] rest IH]; intros h h' cols' t.
  - intros [= <-] [= <- <-]. split_and!; [apply extends_refl|constructor|done].
  - rewrite read_columns_cons. intros (v & t' & Hv & Ht & ->) Hc.
    simpl in Hc. rewrite Hv in Hc. simpl in Hc.
    destruct (alloc_extends h _ v _ eq_refl) as (He1 & _ & Ha').
    apply bind_Some in Hc as ([h2 rest'] & Hrest & [= <- <-]).
    eapply IH in Hrest as (He2 & Hfrom & Hread); [|by eapply read_columns_extends].
    assert (Hlen : length h <= length (h ++ [v])) by (by apply extends_length).
    split_and!.
    + by eapply extends_trans.
    + constructor; [simpl; lia|].
      eapply Forall_impl; [exact Hfrom|]. simpl. intros c Hc. lia.
    + apply read_columns_cons. exists v, t'. split_and!; [by apply He2|done|done].
Qed.

Lemma copy_columns_Some (cols : list (string * addr)) :
  forall (h : heap) (t : list (string * vec)),
  read_columns h cols = Some t -> is_Some (copy_columns h cols).
Proof.
  induction cols as [|[k a] rest IH]; intros h t; [by eexists|].
  rewrite read_columns_cons. intros (v & t' & Hv & Ht & ->). simpl. rewrite Hv. simpl.
  destruct (alloc_extends h _ v _ eq_refl) as (He1 & _ & Ha').
  destruct (IH (h ++ [v]) t') as [[h2 rest'] Hc]; [by eapply read_columns_extends|].
  rewrite Hc. by eexists.
Qed.

Lemma deepcopy_spec (h h' : heap) (df df' : DataFrame) (t : list (string * vec)) :
  read_frame h df = Some t ->
  deepcopy h df = Some (h', df') ->
  extends h h' /\ columns_from (length h) (columns df') /\
  index df' = index df /\ read_frame h' df' = Some t.
Proof.
  unfold deepcopy, read_frame. intros Ht Hc.
  apply bind_Some in Hc as ([h1 cols] & Hc & [= <- <-]).
  eapply copy_columns_spec in Hc as (He & Hfrom & Hread); [|exact Ht]. by split_and!.
Qed.

Lemma getitem_columns_from (n : nat) (df : DataFrame) (key : string) (a : addr) :
  columns_from n (columns df) -> getitem df key = Some a -> n <= a.
Proof.
  unfold getitem, columns_from. intros Hall Hg.
  apply fmap_Some in Hg as ([k b] & Hf & ->). simpl.
  apply find_some in Hf as [Hin _].
  rewrite Forall_forall in Hall. apply list_elem_of_In in Hin. by apply (Hall (k, b)).
Qed.

(** The values of the column [key] of a table. *)
Definition column (t : list (string * vec)) (key : string) : option vec :=
  snd <$> find (fun c => bool_decide (c.1 = key)) t.

Lemma getitem_read (h : heap) (df : DataFrame) (key : string) (a : addr)
      (t : list (string * vec)) :
  read_frame h df = Some t -> getitem df key = Some a ->
  exists v, h !! a = Some v /\ column t key = Some v.
Proof.
  unfold read_frame, getitem, column. generalize (columns df). intros cols.
  revert t. induction cols as [|[k b] cols IH]; intros t; [done|].
  rewrite read_columns_cons. intros (v & t' & Hv & Ht & ->). simpl.
  case_bool_decide; simpl.
  - intros [= <-]. by exists v.
  - by apply IH.
Qed.

(** * The final stage of [main] *)

Section FinalStage.

Variable country_names : list string.
Variable rank_preferences : vec -> bool -> list Z.
Variable daria : DARIA.

(** The arguments of the update: the store is extended, the three arrays are
    buffers that did not exist before, and [S] holds the row means of the
    table of preferences. *)
Lemma arguments_spec (st : State) (h : heap) (S_ G dir : addr)
      (p v : list (string * vec)) :
  read_frame (bufs st) (preferences_t st) = Some p ->
  read_frame (bufs st) (df_varia_fin st) = Some v ->
  arguments st = Some (h, S_, G, dir) ->
  extends (bufs st) h /\
  length (bufs st) <= S_ /\ length (bufs st) <= G /\ length (bufs st) <= dir /\
  h !! S_ = Some (map (fun i => mean (row p.*2 i))
                      (seq 0 (length (index (preferences_t st))))) /\
  h !! G = column v "TOPSIS" /\ h !! dir = column v "TOPSIS dir".
Proof.
  intros Hp Hv Ha. unfold arguments in Ha.
  apply bind_Some in Ha as ([h1 G_df] & HG & Ha).
  apply bind_Some in Ha as ([h2 S_df] & HS & Ha).
  apply bind_Some in Ha as (S_values & Hmean & Ha).
  simpl in Ha.
  apply bind_Some in Ha as (G' & HgG & Ha).
  apply bind_Some in Ha as (dir' & Hgd & [= <- <- <- <-]).
  eapply deepcopy_spec in HG as (He1 & HfromG & _ & HreadG); [|exact Hv].
  destruct (getitem_read _ _ _ _ _ HreadG HgG) as (g & HG1 & ->).
  destruct (getitem_read _ _ _ _ _ HreadG Hgd) as (d & Hd1 & ->).
  eapply deepcopy_spec in HS as (He2 & _ & Hidx & HreadS);
    [|by eapply read_columns_extends].
  pose proof (extends_length _ _ He1) as Hl1.
  pose proof (extends_length _ _ He2) as Hl2.
  destruct (alloc_extends h2 _ S_values _ eq_refl) as (He3 & _ & HS3).
  unfold mean_axis1 in Hmean. rewrite (column_values_read _ _ _ HreadS) in Hmean.
  simpl in Hmean. injection Hmean as <-. rewrite Hidx in HS3, He3 |- *.
  split_and!.
  - eapply extends_trans; [exact He1|]. by eapply extends_trans.
  - lia.
  - by eapply getitem_columns_from.
  - by eapply getitem_columns_from.
  - exact HS3.
  - by apply He3, He2.
  - by apply He3, He2.
Qed.

Lemma final_extends (st st' : State) (p v : list (string * vec)) :
  read_frame (bufs st) (preferences_t st) = Some p ->
  read_frame (bufs st) (df_varia_fin st) = Some v ->
  final country_names rank_preferences daria st = Some st' ->
  extends (bufs st) (bufs st') /\
  preferences_t st' = preferences_t st /\ df_varia_fin st' = df_varia_fin st.
Proof.
  intros Hp Hv Hf. unfold final in Hf.
  apply bind_Some in Hf as ([[[h3 S_] G] dir] & Ha & Hf).
  unfold update_and_rank in Hf.
  apply bind_Some in Hf as (S_v & HS & Hf).
  apply bind_Some in Hf as (G_v & HG & Hf).
  apply bind_Some in Hf as (dir_v & Hd & Hf).
  destruct (_update_efficiency daria S_v G_v dir_v) as [final_S [[S' G'] dir']].
  apply bind_Some in Hf as ([h5 s] & H5 & Hf).
  apply bind_Some in Hf as ([h6 r1] & H6 & Hf).
  apply bind_Some in Hf as ([h7 r2] & H7 & [= <-]). simpl.
  eapply arguments_spec in Ha as (He & HlS & HlG & Hld & _); [|exact Hp|exact Hv].
  apply setitem_extends in H5 as (He5 & _).
  apply setitem_extends in H6 as (He6 & _).
  apply setitem_extends in H7 as (He7 & _).
  split_and!; [|done|done].
  eapply extends_trans; [|exact He7]. eapply extends_trans; [|exact He6].
  eapply extends_trans; [|exact He5].
  by repeat apply insert_extends.
Qed.

End FinalStage.

(** * The annual loop *)

Lemma set_column_fresh (cols : list (string * addr)) (key : string) (a : addr) :
  key ∉ cols.*1 -> set_column cols key a = cols ++ [(key, a)].
Proof.
  induction cols as [|[k b] cols IH]; simpl; [done|].
  intros Hnotin. apply not_elem_of_cons in Hnotin as [Hne Hnotin].
  rewrite decide_False by done. by rewrite IH.
Qed.

Lemma read_columns_snoc (h : heap) (cols : list (string * addr))
      (t : list (string * vec)) (k : string) (a : addr) (v : vec) :
  read_columns h cols = Some t -> h !! a = Some v ->
  read_columns h (cols ++ [(k, a)]) = Some (t ++ [(k, v)]).
Proof.
  unfold read_columns. rewrite !mapM_Some. intros Hc Ha.
  apply Forall2_app; [done|]. constructor; [|constructor]. simpl. by rewrite Ha.
Qed.

(** Assigning a column under a label the table does not have yet appends
    the column and leaves the others as they are. *)
Lemma setitem_fresh (h h' : heap) (df df' : DataFrame) (key : string) (v : vec)
      (t : list (string * vec)) :
  read_frame h df = Some t -> key ∉ t.*1 ->
  setitem h df key v = Some (h', df') ->
  read_frame h' df' = Some (t ++ [(key, v)]) /\ index df' = index df /\
  extends h h' /\ length v = length (index df).
Proof.
  intros Ht Hkey Hs.
  apply setitem_extends in Hs as (He & Hidx & Hlen & Hcols & Hv).
  split_and!; [|done..]. unfold read_frame in *. rewrite Hcols.
  rewrite set_column_fresh by (by rewrite (read_columns_labels _ _ _ Ht)).
  apply read_columns_snoc; [by eapply read_columns_extends|done].
Qed.

Section Annual.

Variable country_names : list string.
Variable read_csv : string -> matrix.
Variable critic_weighting : matrix -> vec.
Variable topsis : matrix -> vec -> list Z -> vec.
Variable rank_preferences : vec -> bool -> list Z.

Local Abbreviation pref := (pref_of read_csv critic_weighting topsis).
Local Abbreviation period' := (period read_csv critic_weighting topsis rank_preferences).

(** After the years [done], the table of preferences has one column per
    year, in order, holding that year's preference vector. *)
Definition annual_inv (done : list string) (st : State) : Prop :=
  read_frame (bufs st) (preferences_t st) = Some (map (fun y => (y, pref y)) done) /\
  index (preferences_t st) = country_names /\
  index (rankings_t st) = country_names /\
  index (summary_corrs st) = country_names.

Lemma init_inv : annual_inv [] (init country_names).
Proof. by split_and!. Qed.

Lemma period_inv (done : list string) (year : string) (st st' : State) :
  annual_inv done st -> year ∉ done ->
  period' st year = Some st' ->
  annual_inv (done ++ [year]) st' /\ length (pref year) = length country_names.
Proof.
  intros (Hp & Hi1 & Hi2 & Hi3) Hnew Hper. unfold period in Hper.
  apply bind_Some in Hper as ([h1 p] & H1 & Hper).
  apply bind_Some in Hper as ([h2 r] & H2 & Hper).
  apply bind_Some in Hper as ([h3 s] & H3 & [= <-]). simpl.
  eapply setitem_fresh in H1 as (Hp1 & Hidx1 & He1 & Hlen1); [|exact Hp|].
  2:{ rewrite <- list_fmap_compose. simpl. by rewrite list_fmap_id. }
  apply setitem_extends in H2 as (He2 & Hidx2 & _).
  apply setitem_extends in H3 as (He3 & Hidx3 & _).
  unfold annual_inv. simpl. rewrite map_app. simpl.
  split_and!; [|congruence..].
  eapply read_columns_extends; [|exact Hp1]. by eapply extends_trans.
Qed.

Lemma for_each_period_inv (years : list string) :
  forall (done : list string) (st st' : State),
  annual_inv done st -> NoDup (done ++ years) ->
  for_each period' st years = Some st' ->
  annual_inv (done ++ years) st' /\
  Forall (fun y => length (pref y) = length country_names) years.
Proof.
  induction years as [|y years IH]; intros done st st' Hinv Hnd Hrun; simpl in Hrun.
  - injection Hrun as <-. by rewrite app_nil_r.
  - apply bind_Some in Hrun as (st1 & Hstep & Hrun).
    assert (Hy : y ∉ done).
    { apply NoDup_app in Hnd as (_ & Hdisj & _). intros Hin.
      apply (Hdisj y Hin). by left. }
    eapply period_inv in Hstep as [Hinv1 Hlen]; [|exact Hinv|exact Hy].
    rewrite (assoc_L (++) done [y] years : done ++ y :: years = (done ++ [y]) ++ years)
      in Hnd |- *.
    eapply IH in Hrun as [Hinv' Hall]; [|exact Hinv1|exact Hnd].
    split; [done|by constructor].
Qed.

Lemma annual_spec (years : list string) (st : State) :
  NoDup years ->
  annual country_names read_csv critic_weighting topsis rank_preferences years = Some st ->
  annual_inv years st /\
  Forall (fun y => length (pref y) = length country_names) years.
Proof.
  intros Hnd Hrun. unfold annual in Hrun.
  by eapply (for_each_period_inv years []) in Hrun; [|apply init_inv|].
Qed.

End Annual.

Lemma str_years_NoDup : NoDup str_years.
Proof. apply (bool_decide_unpack _). by vm_compute. Qed.

(** * The DARIA analysis and the whole run *)

Section Pipeline.

Variable country_names : list string.
Variable read_csv : string -> matrix.
Variable critic_weighting : matrix -> vec.
Variable topsis : matrix -> vec -> list Z -> vec.
Variable rank_preferences : vec -> bool -> list Z.
Variable daria : DARIA.

Local Abbreviation pref := (pref_of read_csv critic_weighting topsis).
Local Abbreviation main' :=
  (main country_names read_csv critic_weighting topsis rank_preferences daria).

(** The table [df_varia_fin] that the analysis of the preferences [t]
    builds. *)
Definition varia_table (t : list (string * vec)) : list (string * vec) :=
  [("TOPSIS"%string, daria.(_entropy) t.*2);
   ("TOPSIS dir"%string, (daria.(_direction) t.*2 1%Z).2)].

Lemma variability_spec (st st' : State) (t : list (string * vec)) :
  read_frame (bufs st) (preferences_t st) = Some t ->
  variability country_names daria st = Some st' ->
  extends (bufs st) (bufs st') /\
  preferences_t st' = preferences_t st /\
  rankings_t st' = rankings_t st /\ summary_corrs st' = summary_corrs st /\
  read_frame (bufs st') (df_varia_fin st') = Some (varia_table t).
Proof.
  intros Ht Hv. unfold variability in Hv.
  rewrite (column_values_read _ _ _ Ht) in Hv. simpl in Hv.
  unfold varia_table.
  destruct (_direction daria t.*2 1%Z) as [dir_list dir_class].
  apply bind_Some in Hv as ([h1 d1] & H1 & Hv).
  apply bind_Some in Hv as ([h2 d2] & H2 & [= <-]). simpl.
  eapply (setitem_fresh _ _ _ _ _ _ []) in H1 as (Hr1 & _ & He1 & _);
    [|done|apply not_elem_of_nil].
  eapply setitem_fresh in H2 as (Hr2 & _ & He2 & _); [|exact Hr1|].
  2:{ simpl. by intros ?%list_elem_of_singleton. }
  split_and!; [by eapply extends_trans|done..].
Qed.

(** The scores the update returns for the preferences [p] and the DARIA
    table with columns [var] and [dirc]: it is applied to the row means of
    [p], to [var] and to [dirc]. *)
Definition final_scores (p : list (string * vec)) (var dirc : vec) : vec :=
  let S_v := map (fun i => mean (row p.*2 i)) (seq 0 (length country_names)) in
  (daria.(_update_efficiency) S_v var dirc).1.

(** The table [results_final] for the scores [final_S]. *)
Definition results_table (final_S : vec) : list (string * vec) :=
  [("DARIA-TOPSIS pref"%string, final_S);
   ("DARIA-TOPSIS rank"%string, IZR <$> rank_preferences final_S true)].

(** The second half of the final stage, from the contents of the three
    arrays: the table of results holds what the update returns for them. *)
Lemma update_and_rank_spec (st st' : State) (h : heap) (S_ G dir : addr)
      (S_v G_v dir_v : vec) :
  h !! S_ = Some S_v -> h !! G = Some G_v -> h !! dir = Some dir_v ->
  update_and_rank country_names rank_preferences daria st h S_ G dir = Some st' ->
  read_frame (bufs st') (results_final st')
  = Some (results_table (daria.(_update_efficiency) S_v G_v dir_v).1).
Proof.
  intros HS HG Hd Hf. unfold update_and_rank in Hf.
  rewrite HS, HG, Hd in Hf. simpl in Hf.
  destruct (_update_efficiency daria S_v G_v dir_v) as [final_S [[S' G'] dir']].
  apply bind_Some in Hf as ([h5 s] & H5 & Hf).
  apply bind_Some in Hf as ([h6 r1] & H6 & Hf).
  apply bind_Some in Hf as ([h7 r2] & H7 & [= <-]). simpl.
  eapply (setitem_fresh _ _ _ _ _ _ []) in H6 as (Hr1 & _ & _ & _);
    [|done|apply not_elem_of_nil].
  eapply setitem_fresh in H7 as (Hr2 & _ & _ & _); [|exact Hr1|]; [done|].
  simpl. by intros ?%list_elem_of_singleton.
Qed.

Lemma final_spec (st st' : State) (p : list (string * vec)) (var dirc : vec) :
  index (preferences_t st) = country_names ->
  read_frame (bufs st) (preferences_t st) = Some p ->
  read_frame (bufs st) (df_varia_fin st)
  = Some [("TOPSIS"%string, var); ("TOPSIS dir"%string, dirc)] ->
  final country_names rank_preferences daria st = Some st' ->
  read_frame (bufs st') (results_final st')
  = Some (results_table (final_scores p var dirc)).
Proof.
  intros Hidx Hp Hv Hf. unfold final in Hf.
  apply bind_Some in Hf as ([[[h3 S_] G] dir] & Ha & Hf).
  eapply arguments_spec in Ha as (_ & _ & _ & _ & HS & HG & Hd); [|exact Hp|exact Hv].
  rewrite Hidx in HS.
  by eapply update_and_rank_spec in Hf.
Qed.

(** The final stage keeps what the two tables denote. *)
Lemma final_tables (st st' : State) (p v : list (string * vec)) :
  read_frame (bufs st) (preferences_t st) = Some p ->
  read_frame (bufs st) (df_varia_fin st) = Some v ->
  final country_names rank_preferences daria st = Some st' ->
  read_frame (bufs st') (preferences_t st') = Some p /\
  read_frame (bufs st') (df_varia_fin st') = Some v.
Proof.
  intros Hp Hv Hf.
  destruct (final_extends _ _ _ _ _ _ _ Hp Hv Hf) as (He & -> & ->).
  split; by eapply read_columns_extends.
Qed.

(** The tables at the start of the final stage: the preferences of the
    years, and the DARIA table computed from them. *)
Lemma before_final (st1 st2 : State) :
  annual country_names read_csv critic_weighting topsis rank_preferences str_years
  = Some st1 ->
  variability country_names daria st1 = Some st2 ->
  let p := map (fun y => (y, pref y)) str_years in
  read_frame (bufs st2) (preferences_t st2) = Some p /\
  read_frame (bufs st2) (df_varia_fin st2) = Some (varia_table p) /\
  index (preferences_t st2) = country_names /\
  Forall (fun y => length (pref y) = length country_names) str_years.
Proof.
  intros Ha Hv p.
  apply annual_spec in Ha as [(Hp & Hi & _ & _) Hlen].
  2:{ exact str_years_NoDup. }
  eapply variability_spec in Hv as (He & Hpt & _ & _ & Hvar); [|exact Hp].
  rewrite Hpt. split_and!; [|done..].
  by eapply read_columns_extends.
Qed.

(** C7.  In the run of [main], the array [S] that the final stage passes to
    [_update_efficiency] as the baseline has one entry per country, and the
    entry of country [i] is the arithmetic mean of the TOPSIS preference
    scores of that country in the years 2020, 2021 and 2022: their sum
    divided by three.  The scores of the table of results are what
    [_update_efficiency] returns for this [S], the variability [G] and the
    directions [dir]. *)
Theorem baseline_is_mean_of_preferences
        (st1 st2 : State) (h : heap) (S_ G dir : addr) :
  annual country_names read_csv critic_weighting topsis rank_preferences str_years
  = Some st1 ->
  variability country_names daria st1 = Some st2 ->
  arguments st2 = Some (h, S_, G, dir) ->
  exists S_v : vec,
    h !! S_ = Some S_v /\ length S_v = length country_names /\
    Forall (fun y => length (pref y) = length country_names) str_years /\
    (forall i : nat, i < length country_names ->
       S_v !! i = Some ((nth i (pref "2020") 0 + nth i (pref "2021") 0
                         + nth i (pref "2022") 0) / 3)%R) /\
    forall st3 : State,
      update_and_rank country_names rank_preferences daria st2 h S_ G dir = Some st3 ->
      read_frame (bufs st3) (results_final st3)
      = Some (results_table
                (daria.(_update_efficiency) S_v
                   (daria.(_entropy) (map pref str_years))
                   (daria.(_direction) (map pref str_years) 1%Z).2).1).
Proof.
  intros Ha Hv Harg.
  destruct (before_final _ _ Ha Hv) as (Hp & Hvar & Hidx & Hlen).
  eapply arguments_spec in Harg as (_ & _ & _ & _ & HS & HG & Hd);
    [|exact Hp|exact Hvar].
  rewrite Hidx in HS. eexists. split; [exact HS|].
  split; [by rewrite length_map, length_seq|]. split; [exact Hlen|].
  split.
  { intros i Hi. rewrite list_lookup_fmap, lookup_seq_lt by done.
    simpl. f_equal. unfold mean, Rsum. simpl. lra. }
  intros st3 Hf.
  by eapply update_and_rank_spec in Hf.
Qed.

(** C10.  The final stage leaves the table of preferences and the DARIA
    table as they were: after the update and the final ranking, both frames
    have the columns they had, holding the values they held, whatever
    [_update_efficiency] writes into the arrays it receives; the three
    arrays it receives are buffers made in the stage (the row means and the
    columns of the deep copy), none of them a buffer of the two tables. *)
Theorem final_preserves_tables (st st' : State) (p v : list (string * vec)) :
  read_frame (bufs st) (preferences_t st) = Some p ->
  read_frame (bufs st) (df_varia_fin st) = Some v ->
  final country_names rank_preferences daria st = Some st' ->
  read_frame (bufs st') (preferences_t st') = Some p /\
  read_frame (bufs st') (df_varia_fin st') = Some v /\
  exists (h : heap) (S_ G dir : addr),
    arguments st = Some (h, S_, G, dir) /\
    length (bufs st) <= S_ /\ length (bufs st) <= G /\ length (bufs st) <= dir.
Proof.
  intros Hp Hv Hf.
  destruct (final_tables _ _ _ _ Hp Hv Hf) as [Hp' Hv'].
  split; [exact Hp'|]. split; [exact Hv'|].
  unfold final in Hf.
  apply bind_Some in Hf as ([[[h3 S_] G] dir] & Ha & _).
  exists h3, S_, G, dir. split; [exact Ha|].
  by eapply arguments_spec in Ha as (_ & HlS & HlG & Hld & _).
Qed.

(** The outcome of a whole run: the two tables hold what was computed
    before the final stage, and the final table holds the updated scores
    and their ranks. *)
Lemma main_spec (st : State) :
  main' = Some st ->
  let p := map (fun y => (y, pref y)) str_years in
  let var := daria.(_entropy) p.*2 in
  let dirc := (daria.(_direction) p.*2 1%Z).2 in
  read_frame (bufs st) (preferences_t st) = Some p /\
  read_frame (bufs st) (df_varia_fin st) = Some (varia_table p) /\
  read_frame (bufs st) (results_final st)
  = Some (results_table (final_scores p var dirc)).
Proof.
  intros Hm p var dirc. unfold main in Hm.
  apply bind_Some in Hm as (st1 & Ha & Hm).
  apply bind_Some in Hm as (st2 & Hv & Hf).
  destruct (before_final _ _ Ha Hv) as (Hp & Hvar & Hidx & _).
  destruct (final_tables _ _ _ _ Hp Hvar Hf) as [Hp' Hvar'].
  split_and!; [done|done|].
  by eapply final_spec.
Qed.

End Pipeline.

(** * The DARIA routines, as the specification describes them

    The module [daria] is imported by [main_daria.py] and is not among the
    sources.  The two routines below follow the specification's text. *)

Module DariaModel.

(** Modelled from the spec: [DARIA._update_efficiency] of the module
    [daria], which is missing.  Section 4.6: "for entity [i],
    [final(i) = baseline(i) + direction(i) * variability(i)]", elementwise
    over vectors of equal length. *)
Fixpoint update_efficiency (baseline variability direction : vec) : vec :=
  match baseline, variability, direction with
  | b :: bs, v :: vs, d :: ds => (b + d * v)%R :: update_efficiency bs vs ds
  | _, _, _ => []
  end.

(** Modelled from the spec: the trend of one entity in [DARIA._direction].
    Section 4.5: "if the later score is greater, direction = ascending
    (encoded [+1]), else descending ([-1])"; "a method with inverted
    convention must flip the mapping" ([type = -1]). *)
Definition trend (type : Z) (first last : R) : R :=
  (IZR type * (if Rlt_dec first last then 1 else -1))%R.

Definition label (d : R) : string :=
  if Rlt_dec 0 d then "ascending" else "descending".

(** Modelled from the spec: [DARIA._direction] of the module [daria], which
    is missing.  The rows of [M] are the periods, in time order; the score at
    the last period is compared with the score at the first one.  The result
    is the list of labels and the numeric directions, one per entity. *)
Definition direction (M : matrix) (type : Z) : list string * vec :=
  match head M, last M with
  | Some first, Some lst =>
      let dir_class := zip_with (trend type) first lst in
      (label <$> dir_class, dir_class)
  | _, _ => ([], [])
  end.

Lemma update_efficiency_length (baseline variability direction : vec) :
  length variability = length baseline -> length direction = length baseline ->
  length (update_efficiency baseline variability direction) = length baseline.
Proof.
  revert variability direction.
  induction baseline as [|b bs IH]; intros [|v vs] [|d ds]; simpl; try done.
  intros [= Hv] [= Hd]. f_equal. by apply IH.
Qed.

Lemma update_efficiency_lookup (baseline variability direction : vec)
      (i : nat) (b v d : R) :
  baseline !! i = Some b -> variability !! i = Some v -> direction !! i = Some d ->
  update_efficiency baseline variability direction !! i = Some (b + d * v)%R.
Proof.
  revert variability direction i.
  induction baseline as [|b0 bs IH]; intros [|v0 vs] [|d0 ds] [|i]; simpl; try done.
  - by intros [= ->] [= ->] [= ->].
  - apply IH.
Qed.

(** C1.  For baseline, variability and direction vectors of one length, the
    updated vector has that length and its entry for entity [i] is
    [baseline(i) + direction(i) * variability(i)]; hence, when
    [variability(i)] is not negative, the entry is at least [baseline(i)]
    for direction [+1] and at most [baseline(i)] for direction [-1]. *)
Theorem update_efficiency_elementwise (baseline variability direction : vec) :
  length variability = length baseline -> length direction = length baseline ->
  length (update_efficiency baseline variability direction) = length baseline /\
  forall (i : nat) (b v d : R),
    baseline !! i = Some b -> variability !! i = Some v -> direction !! i = Some d ->
    exists f : R,
      update_efficiency baseline variability direction !! i = Some f /\
      f = (b + d * v)%R /\
      ((0 <= v)%R -> d = 1%R -> (b <= f)%R) /\
      ((0 <= v)%R -> d = (-1)%R -> (f <= b)%R).
Proof.
  intros Hv Hd. split; [by apply update_efficiency_length|].
  intros i b v d Hb Hvi Hdi. exists (b + d * v)%R.
  split; [by apply update_efficiency_lookup|]. split; [done|].
  split; intros Hpos ->; lra.
Qed.

Lemma update_efficiency_example :
  update_efficiency [0.5; 0.7]%R [0.1; 0.2]%R [1; -1]%R
  = [(0.5 + 1 * 0.1)%R; (0.7 + -1 * 0.2)%R].
Proof. reflexivity. Qed.

Lemma update_efficiency_elementwise_witness :
  length (update_efficiency [0.5; 0.7]%R [0.1; 0.2]%R [1; -1]%R) = 2 /\
  forall (i : nat) (b v d : R),
    [0.5; 0.7]%R !! i = Some b -> [0.1; 0.2]%R !! i = Some v -> [1; -1]%R !! i = Some d ->
    exists f : R,
      update_efficiency [0.5; 0.7]%R [0.1; 0.2]%R [1; -1]%R !! i = Some f /\
      f = (b + d * v)%R /\
      ((0 <= v)%R -> d = 1%R -> (b <= f)%R) /\
      ((0 <= v)%R -> d = (-1)%R -> (f <= b)%R).
Proof.
  apply (update_efficiency_elementwise [0.5; 0.7]%R [0.1; 0.2]%R [1; -1]%R);
    reflexivity.
Defined.

Lemma trend_cases (type : Z) (first last : R) :
  ((first < last)%R -> trend type first last = IZR type) /\
  (~ (first < last)%R -> trend type first last = (- IZR type)%R).
Proof.
  unfold trend. destruct (Rlt_dec first last) as [Hlt|Hge]; split; intros H; try done; lra.
Qed.

Lemma direction_lookup (M : matrix) (type : Z) (first lst : vec) (i : nat) (f l : R) :
  head M = Some first -> last M = Some lst ->
  first !! i = Some f -> lst !! i = Some l ->
  (direction M type).2 !! i = Some (trend type f l).
Proof.
  intros Hh Hl Hf Hli. unfold direction. rewrite Hh, Hl. simpl.
  rewrite lookup_zip_with, Hf. simpl. by rewrite Hli.
Qed.

(** C6.  For the higher-is-better convention ([type = 1]) the direction of
    entity [i] is [+1] when its score at the last period is greater than its
    score at the first period and [-1] otherwise; for the inverted
    convention ([type = -1]) the two values are exchanged. *)
Theorem direction_last_against_first
        (M : matrix) (first lst : vec) (i : nat) (f l : R) :
  head M = Some first -> last M = Some lst ->
  first !! i = Some f -> lst !! i = Some l ->
  ((f < l)%R -> (direction M 1).2 !! i = Some 1%R /\
                (direction M (-1)).2 !! i = Some (-1)%R) /\
  (~ (f < l)%R -> (direction M 1).2 !! i = Some (-1)%R /\
                  (direction M (-1)).2 !! i = Some 1%R).
Proof.
  intros Hh Hl Hf Hli.
  rewrite !(direction_lookup M _ first lst i f l) by done.
  destruct (trend_cases 1 f l) as [Hup1 Hdown1].
  destruct (trend_cases (-1) f l) as [Hup2 Hdown2].
  split; intros Hcmp.
  - rewrite Hup1, Hup2 by done. done.
  - rewrite Hdown1, Hdown2 by done. split; f_equal; lra.
Qed.

Lemma direction_last_against_first_witness :
  ((0.4 < 0.6)%R -> (direction [[0.4]; [0.6]]%R 1).2 !! 0 = Some 1%R /\
                    (direction [[0.4]; [0.6]]%R (-1)).2 !! 0 = Some (-1)%R) /\
  (~ (0.4 < 0.6)%R -> (direction [[0.4]; [0.6]]%R 1).2 !! 0 = Some (-1)%R /\
                      (direction [[0.4]; [0.6]]%R (-1)).2 !! 0 = Some 1%R).
Proof.
  apply (direction_last_against_first [[0.4]; [0.6]]%R [0.4]%R [0.6]%R 0 0.4%R 0.6%R);
    reflexivity.
Defined.

(** The example of the specification: one entity with the scores 0.4 and
    then 0.6 is ascending; an entity whose score did not move is not. *)
Lemma direction_example :
  (direction [[0.4]; [0.6]]%R 1).2 = [1%R] /\
  (direction [[0.5]; [0.5]]%R 1).2 = [(-1)%R].
Proof.
  unfold direction, trend. simpl.
  split; destruct (Rlt_dec _ _); f_equal; lra.
Qed.

(** With [type] one of [1] and [-1], every direction is [1] or [-1], and
    there is one per entity. *)
Lemma direction_values (M : matrix) (type : Z) (first lst : vec) :
  head M = Some first -> last M = Some lst -> length lst = length first ->
  type = 1%Z \/ type = (-1)%Z ->
  length (direction M type).2 = length first /\
  Forall (fun d => d = 1%R \/ d = (-1)%R) (direction M type).2.
Proof.
  intros Hh Hl Hlen Hty. unfold direction. rewrite Hh, Hl. simpl.
  split; [rewrite length_zip_with; lia|].
  apply Forall_forall. intros d Hd.
  apply elem_of_lookup_zip_with in Hd as (i & f & l & -> & _ & _).
  unfold trend. destruct Hty as [-> | ->]; destruct (Rlt_dec f l); [left|right|right|left]; lra.
Qed.

End DariaModel.

(** * A small run

    Two countries and one criterion; the imported routines are replaced by
    stand-ins of the right shape.  The update works in place: it multiplies
    [G] by [dir], adds the product to [S] and returns [S]. *)

Module Sample.

Definition country_names : list string := ["PL"; "DE"]%string.

Definition read_csv (pathfile : string) : matrix :=
  if decide (pathfile = "DATASET/dataset_2020.csv"%string) then [[0.2]; [0.6]]%R
  else if decide (pathfile = "DATASET/dataset_2021.csv"%string) then [[0.3]; [0.5]]%R
  else [[0.4]; [0.4]]%R.

Definition critic_weighting (m : matrix) : vec := [1%R].

Definition topsis (m : matrix) (weights : vec) (types : list Z) : vec :=
  map (fun r => hd 0%R r) m.

Definition rank_preferences (pref : vec) (reverse : bool) : list Z :=
  map (fun i => Z.of_nat (S i)) (seq 0 (length pref)).

Definition update_in_place (S_v G_v dir_v : vec) : vec * (vec * vec * vec) :=
  let G' := zip_with Rmult G_v dir_v in
  let S' := zip_with Rplus S_v G' in
  (S', (S', G', dir_v)).

Definition daria : DARIA := {|
  _entropy := fun M => map (fun _ => 0.1%R) (default [] (head M));
  _direction := DariaModel.direction;
  _update_efficiency := update_in_place |}.

Definition run : option State :=
  main country_names read_csv critic_weighting topsis rank_preferences daria.

Lemma run_Some : is_Some run.
Proof. by eexists. Qed.

(** The state after the three years: nine buffers, three per year. *)
Definition after_annual : State := {|
  bufs := [[0.2; 0.6]; [1; 2]; [1; 2];
           [0.3; 0.5]; [1; 2]; [1; 2];
           [0.4; 0.4]; [1; 2]; [1; 2]]%R;
  preferences_t :=
    mkDataFrame country_names [("2020", 0); ("2021", 3); ("2022", 6)]%string;
  rankings_t :=
    mkDataFrame country_names [("2020", 1); ("2021", 4); ("2022", 7)]%string;
  summary_corrs :=
    mkDataFrame country_names
      [("TOPSIS 2020", 2); ("TOPSIS 2021", 5); ("TOPSIS 2022", 8)]%string;
  df_varia_fin := new_DataFrame country_names;
  results_final := new_DataFrame country_names |}.

Lemma annual_sample :
  annual country_names read_csv critic_weighting topsis rank_preferences str_years
  = Some after_annual.
Proof. reflexivity. Qed.

(** The directions of the two countries: the first went from 0.2 to 0.4,
    the second from 0.6 to 0.4. *)
Definition directions : vec :=
  [DariaModel.trend 1 0.2 0.4; DariaModel.trend 1 0.6 0.4]%R.

Lemma directions_values : directions = [1; -1]%R.
Proof.
  unfold directions, DariaModel.trend.
  repeat destruct (Rlt_dec _ _); repeat f_equal; lra.
Qed.

Definition after_variability : State := {|
  bufs := bufs after_annual ++ [[0.1; 0.1]%R; directions];
  preferences_t := preferences_t after_annual;
  rankings_t := rankings_t after_annual;
  summary_corrs := summary_corrs after_annual;
  df_varia_fin :=
    mkDataFrame country_names [("TOPSIS", 9); ("TOPSIS dir", 10)]%string;
  results_final := new_DataFrame country_names |}.

Lemma variability_sample :
  variability country_names daria after_annual = Some after_variability.
Proof. reflexivity. Qed.

(** The row means of the table of preferences. *)
Definition means : vec := [mean [0.2; 0.3; 0.4]; mean [0.6; 0.5; 0.4]]%R.

Lemma means_values : means = [0.3; 0.5]%R.
Proof. unfold means, mean, Rsum. simpl. f_equal; [|f_equal]; lra. Qed.

(** The store when the update is called: the copies of the two DARIA
    columns (11 and 12), those of the three years (13 to 15), and [S]. *)
Definition at_update : heap :=
  bufs after_variability
  ++ [[0.1; 0.1]%R; directions; [0.2; 0.6]%R; [0.3; 0.5]%R; [0.4; 0.4]%R; means].

Lemma arguments_sample : arguments after_variability = Some (at_update, 16, 11, 12).
Proof. reflexivity. Qed.

End Sample.

Lemma baseline_is_mean_of_preferences_witness :
  exists S_v : vec,
    Sample.at_update !! 16 = Some S_v /\ length S_v = 2 /\
    Forall (fun y => length (pref_of Sample.read_csv Sample.critic_weighting
                                     Sample.topsis y) = 2) str_years /\
    (forall i : nat, i < 2 ->
       S_v !! i
       = Some ((nth i (pref_of Sample.read_csv Sample.critic_weighting
                               Sample.topsis "2020") 0
                + nth i (pref_of Sample.read_csv Sample.critic_weighting
                                 Sample.topsis "2021") 0
                + nth i (pref_of Sample.read_csv Sample.critic_weighting
                                 Sample.topsis "2022") 0) / 3)%R) /\
    forall st3 : State,
      update_and_rank Sample.country_names Sample.rank_preferences Sample.daria
                      Sample.after_variability Sample.at_update 16 11 12 = Some st3 ->
      read_frame (bufs st3) (results_final st3)
      = Some (results_table Sample.rank_preferences
                (Sample.update_in_place S_v [0.1; 0.1]%R Sample.directions).1).
Proof.
  exact (baseline_is_mean_of_preferences
           Sample.country_names Sample.read_csv Sample.critic_weighting Sample.topsis
           Sample.rank_preferences Sample.daria
           Sample.after_annual Sample.after_variability Sample.at_update 16 11 12
           Sample.annual_sample Sample.variability_sample Sample.arguments_sample).
Defined.

(** ** The final stage on a state written out by hand

    The store holds the three yearly preference vectors and the two DARIA
    columns; the in-place update of [Sample.daria] overwrites the copies. *)

Definition sample_before : State := {|
  bufs := [[0.2; 0.6]; [0.3; 0.5]; [0.4; 0.4]; [0.1; 0.1]; [1; -1]]%R;
  preferences_t :=
    mkDataFrame Sample.country_names [("2020", 0); ("2021", 1); ("2022", 2)]%string;
  rankings_t := new_DataFrame Sample.country_names;
  summary_corrs := new_DataFrame Sample.country_names;
  df_varia_fin :=
    mkDataFrame Sample.country_names [("TOPSIS", 3); ("TOPSIS dir", 4)]%string;
  results_final := new_DataFrame Sample.country_names |}.

Definition sample_preferences : list (string * vec) :=
  [("2020", [0.2; 0.6]); ("2021", [0.3; 0.5]); ("2022", [0.4; 0.4])]%string%R.

Definition sample_varia : list (string * vec) :=
  [("TOPSIS", [0.1; 0.1]); ("TOPSIS dir", [1; -1])]%string%R.

(** The scores the in-place update returns, and leaves in [S]. *)
Definition sample_final_S : vec :=
  zip_with Rplus Sample.means [0.1 * 1; 0.1 * -1]%R.

(** The state after the final stage.  The buffers 0 to 4 are those of
    [sample_before]; 5 and 6 are the copies of the DARIA columns, 5
    overwritten with the products; 7 to 9 are the copies of the years; 10
    is [S], overwritten with the scores; 11 to 13 are the new columns of
    [summary_corrs] and [results_final]. *)
Definition sample_after : State := {|
  bufs := [[0.2; 0.6]; [0.3; 0.5]; [0.4; 0.4]; [0.1; 0.1]; [1; -1];
           [0.1 * 1; 0.1 * -1]; [1; -1];
           [0.2; 0.6]; [0.3; 0.5]; [0.4; 0.4];
           sample_final_S;
           [1; 2]; sample_final_S; [1; 2]]%R;
  preferences_t := preferences_t sample_before;
  rankings_t := rankings_t sample_before;
  summary_corrs := mkDataFrame Sample.country_names [("DARIA-TOPSIS", 11)]%string;
  df_varia_fin := df_varia_fin sample_before;
  results_final :=
    mkDataFrame Sample.country_names
      [("DARIA-TOPSIS pref", 12); ("DARIA-TOPSIS rank", 13)]%string |}.

Lemma final_sample :
  final Sample.country_names Sample.rank_preferences Sample.daria sample_before
  = Some sample_after.
Proof. reflexivity. Qed.

Lemma final_preserves_tables_witness :
  read_frame (bufs sample_after) (preferences_t sample_after) = Some sample_preferences /\
  read_frame (bufs sample_after) (df_varia_fin sample_after) = Some sample_varia /\
  exists (h : heap) (S_ G dir : addr),
    arguments sample_before = Some (h, S_, G, dir) /\ 5 <= S_ /\ 5 <= G /\ 5 <= dir.
Proof.
  exact (final_preserves_tables Sample.country_names Sample.rank_preferences
           Sample.daria sample_before sample_after sample_preferences sample_varia
           eq_refl eq_refl final_sample).
Defined.

(** ** Without the deep copies

    The stage as it would be with [G_df = df_varia_fin] and
    [S_df = preferences_t] in place of lines 242 and 245 (this is not the
    source; it shows what the copies are for). *)
Definition arguments_shared (st : State) : option (heap * addr * addr * addr) :=
  let G_df := df_varia_fin st in
  let S_df := preferences_t st in
  S_values ← mean_axis1 (bufs st) S_df;
  let '(h3, S_) := alloc (bufs st) S_values in
  G ← getitem G_df "TOPSIS";
  dir ← getitem G_df "TOPSIS dir";
  Some (h3, S_, G, dir).

Definition final_shared (country_names : list string)
    (rank_preferences : vec -> bool -> list Z) (daria : DARIA) (st : State)
  : option State :=
  '(h3, S_, G, dir) ← arguments_shared st;
  update_and_rank country_names rank_preferences daria st h3 S_ G dir.

(** With the frames shared, the in-place update changes the DARIA table. *)
Lemma final_shared_changes_table :
  exists st' : State,
    final_shared Sample.country_names Sample.rank_preferences Sample.daria
                 sample_before = Some st' /\
    read_frame (bufs st') (df_varia_fin st')
    = Some [("TOPSIS", [0.1 * 1; 0.1 * -1]); ("TOPSIS dir", [1; -1])]%string%R /\
    read_frame (bufs st') (df_varia_fin st') <> Some sample_varia.
Proof.
  eexists. split_and!; [reflexivity|reflexivity|].
  intros [= H1 H2]. lra.
Qed.

(** * When the tables are made

    The tables of [main] fail only where pandas refuses a column whose
    length is not the number of countries.  When every routine returns one
    value per country, every assignment of a column goes through.  (The
    charts and the table [df_results] of the source, which [main] leaves
    out, can still raise.) *)

Lemma getitem_Some (h : heap) (df : DataFrame) (key : string)
      (t : list (string * vec)) :
  read_frame h df = Some t -> is_Some (column t key) -> is_Some (getitem df key).
Proof.
  unfold read_frame, getitem, column. generalize (columns df). intros cols.
  revert t. induction cols as [|[k b] cols IH]; intros t.
  - intros [= <-]. simpl. by intros [? ?].
  - rewrite read_columns_cons. intros (v & t' & Hv & Ht & ->). simpl.
    case_bool_decide; simpl; [by eexists|]. by apply IH.
Qed.

Lemma arguments_Some (st : State) (p v : list (string * vec)) :
  read_frame (bufs st) (preferences_t st) = Some p ->
  read_frame (bufs st) (df_varia_fin st) = Some v ->
  is_Some (column v "TOPSIS") -> is_Some (column v "TOPSIS dir") ->
  is_Some (arguments st).
Proof.
  intros Hp Hv HG Hd. unfold arguments, deepcopy.
  destruct (copy_columns_Some _ _ _ Hv) as [[h1 colsG] HcG].
  rewrite HcG. simpl.
  destruct (copy_columns_spec _ _ _ _ _ Hv HcG) as (He1 & _ & HrG).
  assert (Hp1 : read_columns h1 (columns (preferences_t st)) = Some p)
    by (by eapply read_columns_extends).
  destruct (copy_columns_Some _ _ _ Hp1) as [[h2 colsS] HcS].
  rewrite HcS. simpl.
  destruct (copy_columns_spec _ _ _ _ _ Hp1 HcS) as (_ & _ & HrS).
  unfold mean_axis1.
  rewrite (column_values_read h2 (mkDataFrame (index (preferences_t st)) colsS) p HrS).
  simpl.
  destruct (getitem_Some h1 (mkDataFrame (index (df_varia_fin st)) colsG)
              "TOPSIS" v HrG HG) as [G ->].
  destruct (getitem_Some h1 (mkDataFrame (index (df_varia_fin st)) colsG)
              "TOPSIS dir" v HrG Hd) as [dir ->].
  simpl. by eexists.
Qed.

Section Totality.

Variable country_names : list string.
Variable read_csv : string -> matrix.
Variable critic_weighting : matrix -> vec.
Variable topsis : matrix -> vec -> list Z -> vec.
Variable rank_preferences : vec -> bool -> list Z.
Variable daria : DARIA.

Local Abbreviation pref := (pref_of read_csv critic_weighting topsis).
Local Abbreviation period' := (period read_csv critic_weighting topsis rank_preferences).

(** The three tables of the annual loop are indexed by the countries. *)
Definition indexed (st : State) : Prop :=
  index (preferences_t st) = country_names /\
  index (rankings_t st) = country_names /\
  index (summary_corrs st) = country_names.

(** The routines return one score and one rank per country in the year. *)
Definition shaped (year : string) : Prop :=
  length (pref year) = length country_names /\
  length (rank_preferences (pref year) true) = length country_names.

Lemma period_Some (st : State) (year : string) :
  indexed st -> shaped year ->
  exists st', period' st year = Some st' /\ indexed st'.
Proof.
  intros (Hi1 & Hi2 & Hi3) [Hs1 Hs2]. unfold period.
  destruct (setitem_Some (bufs st) (preferences_t st) year (pref year))
    as [[h1 p] H1]; [by rewrite Hi1|].
  rewrite H1. simpl.
  destruct (setitem_Some h1 (rankings_t st) year
              (IZR <$> rank_preferences (pref year) true))
    as [[h2 r] H2]; [by rewrite length_fmap, Hi2|].
  rewrite H2. simpl.
  destruct (setitem_Some h2 (summary_corrs st) ("TOPSIS " +:+ year)
              (IZR <$> rank_preferences (pref year) true))
    as [[h3 s] H3]; [by rewrite length_fmap, Hi3|].
  rewrite H3. simpl. eexists. split; [done|].
  apply setitem_extends in H1 as (_ & Hx1 & _).
  apply setitem_extends in H2 as (_ & Hx2 & _).
  apply setitem_extends in H3 as (_ & Hx3 & _).
  unfold indexed. simpl. split_and!; congruence.
Qed.

Lemma for_each_period_Some (years : list string) :
  forall st : State, indexed st -> Forall shaped years ->
  exists st', for_each period' st years = Some st' /\ indexed st'.
Proof.
  induction years as [|y years IH]; intros st Hi Hall; simpl.
  - by exists st.
  - apply Forall_cons in Hall as [Hy Hall].
    destruct (period_Some st y Hi Hy) as (st1 & -> & Hi1). simpl.
    by apply IH.
Qed.

Lemma variability_Some (st : State) (t : list (string * vec)) :
  read_frame (bufs st) (preferences_t st) = Some t ->
  length (daria.(_entropy) t.*2) = length country_names ->
  length (daria.(_direction) t.*2 1%Z).2 = length country_names ->
  is_Some (variability country_names daria st).
Proof.
  intros Ht Hvar Hdirc. unfold variability.
  rewrite (column_values_read _ _ _ Ht). cbn [mbind option_bind].
  destruct (_direction daria t.*2 1%Z) as [dir_list dir_class]. simpl in Hdirc.
  destruct (setitem_Some (bufs st) (new_DataFrame country_names) "TOPSIS"
              (_entropy daria t.*2)) as [[h1 d1] H1]; [done|].
  rewrite H1. cbn [mbind option_bind].
  destruct (setitem_Some h1 d1 "TOPSIS dir" dir_class) as [[h2 d2] H2].
  { apply setitem_extends in H1 as (_ & -> & _). done. }
  rewrite H2. by eexists.
Qed.

Lemma final_Some (st : State) (p : list (string * vec)) (var dirc : vec) :
  index (preferences_t st) = country_names ->
  index (summary_corrs st) = country_names ->
  read_frame (bufs st) (preferences_t st) = Some p ->
  read_frame (bufs st) (df_varia_fin st)
  = Some [("TOPSIS"%string, var); ("TOPSIS dir"%string, dirc)] ->
  length (final_scores country_names daria p var dirc) = length country_names ->
  length (rank_preferences (final_scores country_names daria p var dirc) true)
  = length country_names ->
  is_Some (final country_names rank_preferences daria st).
Proof.
  intros Hidx Hidx3 Hp Hv Hfin Hrank.
  destruct (arguments_Some st p _ Hp Hv) as [[[[h3 S_] G] dir] Harg];
    [by eexists|by eexists|].
  unfold final. rewrite Harg. cbn [mbind option_bind].
  destruct (arguments_spec st h3 S_ G dir p _ Hp Hv Harg)
    as (_ & _ & _ & _ & HS & HG & Hd).
  unfold update_and_rank. rewrite HS, HG, Hd, Hidx.
  unfold final_scores in Hfin, Hrank. cbn [mbind option_bind column fmap option_fmap
    option_map find bool_decide fst snd].
  simpl.
  destruct (_update_efficiency daria _ var dirc) as [fS [[S' G'] dir']].
  simpl in Hfin, Hrank.
  destruct (setitem_Some (<[dir:=dir']> (<[G:=G']> (<[S_:=S']> h3)))
              (summary_corrs st) "DARIA-TOPSIS" (IZR <$> rank_preferences fS true))
    as [[h5 s] H5]; [by rewrite length_fmap, Hidx3|].
  rewrite H5. cbn [mbind option_bind].
  destruct (setitem_Some h5 (new_DataFrame country_names) "DARIA-TOPSIS pref" fS)
    as [[h6 r1] H6]; [done|].
  rewrite H6. cbn [mbind option_bind].
  destruct (setitem_Some h6 r1 "DARIA-TOPSIS rank" (IZR <$> rank_preferences fS true))
    as [[h7 r2] H7].
  { apply setitem_extends in H6 as (_ & -> & _). by rewrite length_fmap. }
  rewrite H7. by eexists.
Qed.

(** No assignment of a column of [main] is refused when every routine
    returns one value per country. *)
Lemma main_Some :
  let p := map (fun y => (y, pref y)) str_years in
  let var := daria.(_entropy) p.*2 in
  let dirc := (daria.(_direction) p.*2 1%Z).2 in
  let final_S := final_scores country_names daria p var dirc in
  Forall shaped str_years ->
  length var = length country_names ->
  length dirc = length country_names ->
  length final_S = length country_names ->
  length (rank_preferences final_S true) = length country_names ->
  is_Some (main country_names read_csv critic_weighting topsis rank_preferences daria).
Proof.
  intros p var dirc final_S Hshaped Hvar Hdirc Hfin Hrank. unfold main.
  destruct (for_each_period_Some str_years (init country_names)) as (st1 & Ha & Hi1);
    [by split_and!|exact Hshaped|].
  unfold annual. rewrite Ha. cbn [mbind option_bind].
  destruct (annual_spec country_names read_csv critic_weighting topsis
              rank_preferences str_years st1 str_years_NoDup Ha)
    as [(Hp & Hidx & _ & Hidx3) _].
  destruct (variability_Some st1 _ Hp Hvar Hdirc) as [st2 Hv].
  rewrite Hv. cbn [mbind option_bind].
  destruct (variability_spec country_names daria st1 st2 _ Hp Hv)
    as (He & Hpt & _ & Hsc & Hvt).
  eapply final_Some; [congruence|congruence| |exact Hvt|exact Hfin|exact Hrank].
  rewrite Hpt. by eapply read_columns_extends.
Qed.

End Totality.

(** * The tables of ranks

    Besides the preferences, the annual loop fills [rankings_t] and
    [summary_corrs] with the ranks of every year, and the final stage adds
    the column of the final ranks to [summary_corrs]. *)

Section RankTables.

Variable country_names : list string.
Variable read_csv : string -> matrix.
Variable critic_weighting : matrix -> vec.
Variable topsis : matrix -> vec -> list Z -> vec.
Variable rank_preferences : vec -> bool -> list Z.
Variable daria : DARIA.

Local Abbreviation pref := (pref_of read_csv critic_weighting topsis).
Local Abbreviation period' := (period read_csv critic_weighting topsis rank_preferences).

(** The ranks of a year, as they are stored in the tables. *)
Definition ranks_of (year : string) : vec :=
  IZR <$> rank_preferences (pref year) true.

Definition rank_tables_inv (done : list string) (st : State) : Prop :=
  read_frame (bufs st) (rankings_t st) = Some (map (fun y => (y, ranks_of y)) done) /\
  read_frame (bufs st) (summary_corrs st)
  = Some (map (fun y => (("TOPSIS " +:+ y)%string, ranks_of y)) done).

Lemma period_rank_tables (done : list string) (year : string) (st st' : State) :
  annual_inv country_names read_csv critic_weighting topsis done st ->
  rank_tables_inv done st -> year ∉ done ->
  period' st year = Some st' ->
  rank_tables_inv (done ++ [year]) st' /\
  length (rank_preferences (pref year) true) = length country_names.
Proof.
  intros (_ & _ & Hi2 & Hi3) [Hr Hs] Hnew Hper. unfold period in Hper.
  apply bind_Some in Hper as ([h1 p] & H1 & Hper).
  apply bind_Some in Hper as ([h2 r] & H2 & Hper).
  apply bind_Some in Hper as ([h3 s] & H3 & [= <-]). simpl.
  apply setitem_extends in H1 as (He1 & _).
  eapply setitem_fresh in H2 as (Hr2 & _ & He2 & Hlen2);
    [|by eapply read_columns_extends|].
  2:{ rewrite <- list_fmap_compose. simpl. by rewrite list_fmap_id. }
  eapply setitem_fresh in H3 as (Hs3 & _ & He3 & _).
  2:{ eapply read_columns_extends; [|exact Hs]. by eapply extends_trans. }
  2:{ rewrite <- list_fmap_compose. simpl.
      intros (y & Heq & Hy)%list_elem_of_fmap.
      apply String.app_inj in Heq as ->. done. }
  unfold rank_tables_inv. simpl. rewrite !map_app. simpl.
  split; [split|].
  - by eapply read_columns_extends.
  - exact Hs3.
  - rewrite length_fmap in Hlen2. by rewrite Hlen2, Hi2.
Qed.

Lemma for_each_rank_tables (years : list string) :
  forall (done : list string) (st st' : State),
  annual_inv country_names read_csv critic_weighting topsis done st ->
  rank_tables_inv done st -> NoDup (done ++ years) ->
  for_each period' st years = Some st' ->
  rank_tables_inv (done ++ years) st' /\
  Forall (fun y => length (rank_preferences (pref y) true) = length country_names)
         years.
Proof.
  induction years as [|y years IH]; intros done st st' Hinv Hrt Hnd Hrun;
    simpl in Hrun.
  - injection Hrun as <-. by rewrite app_nil_r.
  - apply bind_Some in Hrun as (st1 & Hstep & Hrun).
    assert (Hy : y ∉ done).
    { apply NoDup_app in Hnd as (_ & Hdisj & _). intros Hin.
      apply (Hdisj y Hin). by left. }
    destruct (period_rank_tables _ _ _ _ Hinv Hrt Hy Hstep) as [Hrt1 Hlen].
    eapply period_inv in Hstep as [Hinv1 _]; [|exact Hinv|exact Hy].
    rewrite (assoc_L (++) done [y] years : done ++ y :: years = (done ++ [y]) ++ years)
      in Hnd |- *.
    eapply IH in Hrun as [Hrt' Hall]; [|exact Hinv1|exact Hrt1|exact Hnd].
    split; [done|by constructor].
Qed.

Lemma annual_rank_tables (years : list string) (st : State) :
  NoDup years ->
  annual country_names read_csv critic_weighting topsis rank_preferences years = Some st ->
  rank_tables_inv years st /\
  Forall (fun y => length (rank_preferences (pref y) true) = length country_names)
         years.
Proof.
  intros Hnd Hrun. unfold annual in Hrun.
  eapply (for_each_rank_tables years []) in Hrun; [done|apply init_inv|done|done].
Qed.

End RankTables.

(** * The outcome of a whole run *)

Section WholeRun.

Variable country_names : list string.
Variable read_csv : string -> matrix.
Variable critic_weighting : matrix -> vec.
Variable topsis : matrix -> vec -> list Z -> vec.
Variable rank_preferences : vec -> bool -> list Z.
Variable daria : DARIA.

Local Abbreviation pref := (pref_of read_csv critic_weighting topsis).
Local Abbreviation ranks := (ranks_of read_csv critic_weighting topsis rank_preferences).
Local Abbreviation main' :=
  (main country_names read_csv critic_weighting topsis rank_preferences daria).

Lemma variability_lengths (st st' : State) (t : list (string * vec)) :
  read_frame (bufs st) (preferences_t st) = Some t ->
  variability country_names daria st = Some st' ->
  length (daria.(_entropy) t.*2) = length country_names /\
  length (daria.(_direction) t.*2 1%Z).2 = length country_names.
Proof.
  intros Ht Hv. unfold variability in Hv.
  rewrite (column_values_read _ _ _ Ht) in Hv. cbn [mbind option_bind] in Hv.
  destruct (_direction daria t.*2 1%Z) as [dir_list dir_class].
  apply bind_Some in Hv as ([h1 d1] & H1 & Hv).
  apply bind_Some in Hv as ([h2 d2] & H2 & _).
  apply setitem_extends in H1 as (_ & Hi1 & Hl1 & _).
  apply setitem_extends in H2 as (_ & _ & Hl2 & _).
  rewrite Hi1 in Hl2. done.
Qed.

(** The final stage appends the column of the final ranks to the summary,
    and it goes through only when the update returns one score per country
    and the ranking one rank per score. *)
Lemma final_summary (st st' : State) (p s : list (string * vec)) (var dirc : vec) :
  index (preferences_t st) = country_names ->
  read_frame (bufs st) (preferences_t st) = Some p ->
  read_frame (bufs st) (df_varia_fin st)
  = Some [("TOPSIS"%string, var); ("TOPSIS dir"%string, dirc)] ->
  read_frame (bufs st) (summary_corrs st) = Some s ->
  "DARIA-TOPSIS"%string ∉ s.*1 ->
  final country_names rank_preferences daria st = Some st' ->
  let final_S := final_scores country_names daria p var dirc in
  read_frame (bufs st') (summary_corrs st')
  = Some (s ++ [("DARIA-TOPSIS"%string, IZR <$> rank_preferences final_S true)]) /\
  rankings_t st' = rankings_t st /\
  length final_S = length country_names /\
  length (rank_preferences final_S true) = length country_names.
Proof.
  intros Hidx Hp Hv Hs Hnew Hf final_S. unfold final in Hf.
  apply bind_Some in Hf as ([[[h3 S_] G] dir] & Ha & Hf).
  eapply arguments_spec in Ha as (He & HlS & HlG & Hld & HS & HG & Hd);
    [|exact Hp|exact Hv].
  rewrite Hidx in HS. unfold update_and_rank in Hf.
  rewrite HS, HG, Hd in Hf. simpl in Hf.
  unfold final_S, final_scores.
  destruct (_update_efficiency daria _ var dirc) as [fS [[S' G'] dir']].
  apply bind_Some in Hf as ([h5 s5] & H5 & Hf).
  apply bind_Some in Hf as ([h6 r1] & H6 & Hf).
  apply bind_Some in Hf as ([h7 r2] & H7 & [= <-]). simpl.
  eapply setitem_fresh in H5 as (Hs5 & _ & _ & _); [| |exact Hnew].
  2:{ eapply read_columns_extends; [|exact Hs]. by repeat apply insert_extends. }
  apply setitem_extends in H6 as (He6 & Hi6 & Hl6 & _).
  apply setitem_extends in H7 as (He7 & _ & Hl7 & _).
  rewrite Hi6, length_fmap in Hl7.
  split_and!; [|done..].
  eapply read_columns_extends; [|exact Hs5]. by eapply extends_trans.
Qed.

Lemma str_years_labels :
  "DARIA-TOPSIS"%string ∉ (map (fun y => (("TOPSIS " +:+ y)%string, ranks y)) str_years).*1.
Proof.
  simpl. intros H.
  repeat (apply elem_of_cons in H as [H|H]; [discriminate H|]).
  by apply elem_of_nil in H.
Qed.

(** The summary of the ranks at the end of a run. *)
Definition summary_table : list (string * vec) :=
  let p := map (fun y => (y, pref y)) str_years in
  let var := daria.(_entropy) p.*2 in
  let dirc := (daria.(_direction) p.*2 1%Z).2 in
  let final_S := final_scores country_names daria p var dirc in
  map (fun y => (("TOPSIS " +:+ y)%string, ranks y)) str_years
  ++ [("DARIA-TOPSIS"%string, IZR <$> rank_preferences final_S true)].

Lemma main_summary (st : State) :
  main' = Some st ->
  read_frame (bufs st) (summary_corrs st) = Some summary_table /\
  read_frame (bufs st) (rankings_t st) = Some (map (fun y => (y, ranks y)) str_years).
Proof.
  intros Hm. unfold main in Hm.
  apply bind_Some in Hm as (st1 & Ha & Hm).
  apply bind_Some in Hm as (st2 & Hv & Hf).
  destruct (before_final _ _ _ _ _ _ _ _ Ha Hv) as (Hp & Hvar & Hidx & _).
  destruct (annual_rank_tables _ _ _ _ _ _ _ str_years_NoDup Ha) as [[Hr Hs] _].
  destruct (annual_spec _ _ _ _ _ _ _ str_years_NoDup Ha) as [(Hp1 & _) _].
  destruct (variability_spec _ _ _ _ _ Hp1 Hv) as (He & _ & Hrt & Hsc & _).
  assert (Hs2 : read_frame (bufs st2) (summary_corrs st2)
                = Some (map (fun y => (("TOPSIS " +:+ y)%string, ranks y)) str_years)).
  { rewrite Hsc. by eapply read_columns_extends. }
  destruct (final_summary _ _ _ _ _ _ Hidx Hp Hvar Hs2 str_years_labels Hf)
    as (Hsum & Hrk & _).
  destruct (final_extends _ _ _ _ _ _ _ Hp Hvar Hf) as (He' & Hpt & Hvt).
  split; [exact Hsum|].
  rewrite Hrk, Hrt. eapply read_columns_extends; [|exact Hr].
  by eapply extends_trans.
Qed.

(** X1.  The tables at the end of a run of [main]: the preferences and the ranks
    of the three years, the summary of the ranks with the final ranks as
    its last column, the DARIA table and the table of results. *)
Theorem main_tables (st : State) :
  main' = Some st ->
  let p := map (fun y => (y, pref y)) str_years in
  let var := daria.(_entropy) p.*2 in
  let dirc := (daria.(_direction) p.*2 1%Z).2 in
  let final_S := final_scores country_names daria p var dirc in
  let final_rank := IZR <$> rank_preferences final_S true in
  read_frame (bufs st) (preferences_t st) = Some p /\
  read_frame (bufs st) (rankings_t st) = Some (map (fun y => (y, ranks y)) str_years) /\
  read_frame (bufs st) (summary_corrs st)
  = Some (map (fun y => (("TOPSIS " +:+ y)%string, ranks y)) str_years
          ++ [("DARIA-TOPSIS"%string, final_rank)]) /\
  read_frame (bufs st) (df_varia_fin st)
  = Some [("TOPSIS"%string, var); ("TOPSIS dir"%string, dirc)] /\
  read_frame (bufs st) (results_final st)
  = Some [("DARIA-TOPSIS pref"%string, final_S); ("DARIA-TOPSIS rank"%string, final_rank)].
Proof.
  intros Hm p var dirc final_S final_rank.
  destruct (main_summary st Hm) as [Hsum Hrk].
  destruct (main_spec _ _ _ _ _ _ st Hm) as (Hp & Hv & Hres).
  by split_and!.
Qed.

(** Every routine returns one value per country: the scores and the ranks
    of each year, the variability, the directions, the updated scores and
    the final ranks. *)
Definition shapes_fit : Prop :=
  let p := map (fun y => (y, pref y)) str_years in
  let var := daria.(_entropy) p.*2 in
  let dirc := (daria.(_direction) p.*2 1%Z).2 in
  let final_S := final_scores country_names daria p var dirc in
  Forall (shaped country_names read_csv critic_weighting topsis rank_preferences)
         str_years /\
  length var = length country_names /\
  length dirc = length country_names /\
  length final_S = length country_names /\
  length (rank_preferences final_S true) = length country_names.

(** X2.  When [main] ends with its tables, for a list of countries that is
    not empty, every imported routine has returned one value per country:
    were one of them to return more or fewer values, the assignment of its
    column would fail and the run would not reach its end. *)
Theorem main_ends_shapes_fit (st : State) :
  country_names <> [] -> main' = Some st -> shapes_fit.
Proof.
  intros _ Hm. unfold main in Hm.
  apply bind_Some in Hm as (st1 & Ha & Hm).
  apply bind_Some in Hm as (st2 & Hv & Hf).
  destruct (before_final _ _ _ _ _ _ _ _ Ha Hv) as (Hp & Hvar & Hidx & Hlen).
  destruct (annual_rank_tables _ _ _ _ _ _ _ str_years_NoDup Ha) as [[Hr Hs] Hrl].
  destruct (annual_spec _ _ _ _ _ _ _ str_years_NoDup Ha) as [(Hp1 & _) _].
  destruct (variability_lengths _ _ _ Hp1 Hv) as [Hl1 Hl2].
  destruct (variability_spec _ _ _ _ _ Hp1 Hv) as (He & _ & Hrt & Hsc & _).
  assert (Hs2 : read_frame (bufs st2) (summary_corrs st2)
                = Some (map (fun y => (("TOPSIS " +:+ y)%string, ranks y)) str_years)).
  { rewrite Hsc. by eapply read_columns_extends. }
  destruct (final_summary _ _ _ _ _ _ Hidx Hp Hvar Hs2 str_years_labels Hf)
    as (_ & _ & Hl3 & Hl4).
  unfold shapes_fit. split_and!; [|done..].
  apply Forall_forall. intros y Hy. split.
  - by apply (proj1 (Forall_forall _ _) Hlen).
  - by apply (proj1 (Forall_forall _ _) Hrl).
Qed.

End WholeRun.

(** * The tables of correlations, lines 269-290

    [class Create_dictionary(dict)]: a dictionary keeps its keys in the
    order of their first insertion; here every key is bound to a list
    object, a buffer of the store. *)

Abbreviation Create_dictionary := (list (string * addr)).

(** [Create_dictionary()].  [__init__] only rebinds its local name [self];
    the new object is the empty dictionary. *)
Definition Create_dictionary_init : Create_dictionary := [].

(** [add(self, key, value)]: [self[key] = value]. *)
Definition add (self : Create_dictionary) (key : string) (value : addr)
  : Create_dictionary :=
  set_column self key value.

(** [d[key]]; [KeyError] is [None]. *)
Definition dict_getitem (d : Create_dictionary) (key : string) : option addr :=
  snd <$> find (fun c => bool_decide (c.1 = key)) d.

(** [for el in method_types: d.add(el, [])]: every key gets a new empty
    list. *)
Fixpoint add_empty_lists (h : heap) (d : Create_dictionary) (method_types : list string)
  : heap * Create_dictionary :=
  match method_types with
  | [] => (h, d)
  | el :: rest =>
      let '(h', l) := alloc h [] in
      add_empty_lists h' (add d el l) rest
  end.

(** [df[key]], the values of a column. *)
Definition series (h : heap) (df : DataFrame) (key : string) : option vec :=
  a ← getitem df key; h !! a.

(** [d[key].append(x)] *)
Definition append (h : heap) (d : Create_dictionary) (key : string) (x : R)
  : option heap :=
  l ← dict_getitem d key;
  v ← h !! l;
  Some (<[l := v ++ [x]]> h).

(** [pd.DataFrame(d, index = idx)]: one column per key, in the order of the
    keys, each a copy of the key's list; pandas raises [ValueError] when a
    list has not the length of the index. *)
Definition DataFrame_from_dict (h : heap) (d : Create_dictionary) (idx : list string)
  : option (heap * DataFrame) :=
  t ← read_columns h d;
  if decide (Forall (fun c => length c.2 = length idx) t) then
    '(h', cols) ← copy_columns h d;
    Some (h', mkDataFrame idx cols)
  else None.

(** [df.columns = labels]: the columns are relabelled in order; pandas
    raises [ValueError] when the number of labels is not the number of
    columns. *)
Definition set_columns (df : DataFrame) (labels : list string) : option DataFrame :=
  if decide (length labels = length (columns df)) then
    Some (mkDataFrame (index df) (zip labels (columns df).*2))
  else None.

Section Correlations.

(** [corrs.weighted_spearman] and [corrs.spearman], as functions of the
    values of the two columns. *)
Variable weighted_spearman : vec -> vec -> R.
Variable spearman : vec -> vec -> R.

(** The body of the inner loop, lines 283-284, for the row [i] and the
    column [j]. *)
Definition cell (summary_corrs : DataFrame)
    (dict_new_heatmap_rw dict_new_heatmap_rs : Create_dictionary)
    (i : string) (h : heap) (j : string) : option heap :=
  x ← series h summary_corrs i;
  y ← series h summary_corrs j;
  h1 ← append h dict_new_heatmap_rw j (weighted_spearman x y);
  x' ← series h1 summary_corrs i;
  y' ← series h1 summary_corrs j;
  append h1 dict_new_heatmap_rs j (spearman x' y').

(** Lines 272-290: the two tables of correlations between the columns of
    [summary_corrs]. *)
Definition heatmaps (h : heap) (summary_corrs : DataFrame)
  : option (heap * DataFrame * DataFrame) :=
  (* method_types = list(summary_corrs.columns) *)
  let method_types := (columns summary_corrs).*1 in
  (* dict_new_heatmap_rw = Create_dictionary(); the loop of add(el, []) *)
  let '(h1, dict_new_heatmap_rw) :=
    add_empty_lists h Create_dictionary_init method_types in
  (* dict_new_heatmap_rs = copy.deepcopy(dict_new_heatmap_rw) *)
  '(h2, dict_new_heatmap_rs) ← copy_columns h1 dict_new_heatmap_rw;
  (* for i in method_types[::-1]: for j in method_types: ... *)
  h3 ← for_each
         (fun h i =>
            for_each (cell summary_corrs dict_new_heatmap_rw dict_new_heatmap_rs i)
                     h method_types)
         h2 (reverse method_types);
  (* df_new_heatmap_rw = pd.DataFrame(dict_new_heatmap_rw, index = method_types[::-1]) *)
  '(h4, df_rw) ← DataFrame_from_dict h3 dict_new_heatmap_rw (reverse method_types);
  (* df_new_heatmap_rw.columns = method_types *)
  df_new_heatmap_rw ← set_columns df_rw method_types;
  '(h5, df_rs) ← DataFrame_from_dict h4 dict_new_heatmap_rs (reverse method_types);
  df_new_heatmap_rs ← set_columns df_rs method_types;
  Some (h5, df_new_heatmap_rw, df_new_heatmap_rs).

End Correlations.

(** ** Dictionaries of lists *)

Lemma dict_getitem_zip (keys : list string) :
  forall (L j : nat) (k : string),
  NoDup keys -> keys !! j = Some k ->
  dict_getitem (zip keys (seq L (length keys))) k = Some (L + j).
Proof.
  unfold dict_getitem.
  induction keys as [|k0 keys IH]; intros L j k Hnd Hk; [done|].
  apply NoDup_cons in Hnd as [Hnotin Hnd]. simpl.
  destruct j as [|j]; simpl in Hk.
  - injection Hk as ->. rewrite bool_decide_eq_true_2 by done. simpl.
    f_equal. lia.
  - rewrite bool_decide_eq_false_2.
    + rewrite (IH (S L) j k Hnd Hk). f_equal. lia.
    + intros ->. apply Hnotin. by eapply list_elem_of_lookup_2.
Qed.

Lemma add_empty_lists_spec (els : list string) :
  forall (h : heap) (d : Create_dictionary),
  NoDup els -> (forall el, el ∈ els -> el ∉ d.*1) ->
  add_empty_lists h d els
  = (h ++ replicate (length els) [], d ++ zip els (seq (length h) (length els))).
Proof.
  induction els as [|el els IH]; intros h d Hnd Hfresh; simpl.
  - by rewrite !app_nil_r.
  - apply NoDup_cons in Hnd as [Hnotin Hnd].
    unfold add. rewrite set_column_fresh by (apply Hfresh; by left).
    rewrite IH; [|done|].
    + rewrite length_app. simpl. rewrite Nat.add_1_r.
      by rewrite <- !(assoc_L (++)).
    + intros el' Hel'. rewrite fmap_app. simpl.
      intros [Hin|Hin%list_elem_of_singleton]%elem_of_app.
      * eapply Hfresh; [|exact Hin]. by right.
      * by subst.
Qed.

Lemma copy_columns_exact (cols : list (string * addr)) :
  forall (h : heap) (t : list (string * vec)),
  read_columns h cols = Some t ->
  copy_columns h cols
  = Some (h ++ t.*2, zip cols.*1 (seq (length h) (length cols))).
Proof.
  induction cols as [|[k a] rest IH]; intros h t.
  - intros [= <-]. simpl. by rewrite app_nil_r.
  - rewrite read_columns_cons. intros (v & t' & Hv & Ht & ->).
    simpl. rewrite Hv. simpl.
    destruct (alloc_extends h _ v _ eq_refl) as (He1 & _ & _).
    rewrite (IH (h ++ [v]) t') by (by eapply read_columns_extends). simpl.
    rewrite length_app. simpl. rewrite Nat.add_1_r.
    by rewrite <- (assoc_L (++)).
Qed.

(** A dictionary whose keys are bound to consecutive buffers reads as the
    values of those buffers. *)
Lemma read_columns_zip (keys : list string) :
  forall (h : heap) (L : nat) (vals : list vec),
  length vals = length keys ->
  (forall j v, vals !! j = Some v -> h !! (L + j) = Some v) ->
  read_columns h (zip keys (seq L (length keys))) = Some (zip keys vals).
Proof.
  induction keys as [|k keys IH]; intros h L [|v vals] Hlen Hlook; try done.
  simpl. apply read_columns_cons. exists v, (zip keys vals).
  split_and!; [|apply IH|done].
  - rewrite <- (Hlook 0 v eq_refl). f_equal. lia.
  - simpl in Hlen. lia.
  - intros j w Hw. rewrite <- (Hlook (S j) w Hw). f_equal. lia.
Qed.

(** ** The loops over the pairs of columns *)

(** The column of the table of correlations under the label of [c_j]:
    one entry per row, the rows being the columns of the summary in reverse
    order. *)
Definition corr_column (corr : vec -> vec -> R) (rows : list (string * vec))
    (c_j : string * vec) : vec :=
  map (fun c_i => corr c_i.2 c_j.2) rows.

Definition corr_table (corr : vec -> vec -> R) (t : list (string * vec))
  : list (string * vec) :=
  map (fun c_j => (c_j.1, corr_column corr (reverse t) c_j)) t.

Lemma column_NoDup (t : list (string * vec)) (c : string * vec) :
  NoDup t.*1 -> c ∈ t -> column t c.1 = Some c.2.
Proof.
  unfold column. induction t as [|c0 t IH]; intros Hnd Hin; [by apply elem_of_nil in Hin|].
  simpl in Hnd. apply NoDup_cons in Hnd as [Hnotin Hnd]. simpl.
  apply elem_of_cons in Hin as [->|Hin].
  - by rewrite bool_decide_eq_true_2.
  - rewrite bool_decide_eq_false_2; [by apply IH|].
    intros Heq. apply Hnotin. rewrite Heq. by apply list_elem_of_fmap_2.
Qed.

Lemma series_read (h h' : heap) (df : DataFrame) (t : list (string * vec))
      (c : string * vec) :
  read_frame h df = Some t -> NoDup t.*1 -> c ∈ t -> extends h h' ->
  series h' df c.1 = Some c.2.
Proof.
  intros Ht Hnd Hin He. unfold series.
  destruct (getitem_Some h df c.1 t Ht) as [a Ha].
  { rewrite column_NoDup by done. by eexists. }
  rewrite Ha. simpl.
  destruct (getitem_read h df c.1 a t Ht Ha) as (v & Hv & Hcol).
  rewrite column_NoDup in Hcol by done. injection Hcol as <-. by apply He.
Qed.

Section Loops.

Variable weighted_spearman : vec -> vec -> R.
Variable spearman : vec -> vec -> R.
Variable h0 : heap.
Variable summary_corrs : DataFrame.
Variable t : list (string * vec).
Hypothesis Ht : read_frame h0 summary_corrs = Some t.
Hypothesis Hnd : NoDup t.*1.

Local Abbreviation L := (length h0).
Local Abbreviation n := (length t).
Local Abbreviation dict_rw := (zip t.*1 (seq L (length t.*1))).
Local Abbreviation dict_rs := (zip t.*1 (seq (L + n) (length t.*1))).

(** While the row [c_i] is being appended, the lists of the first [m]
    columns have its entry and the others have not: the list of column [j]
    of the first dictionary is the buffer [L + j], that of the second the
    buffer [L + n + j]. *)
Definition cells_inv (rows : list (string * vec)) (c_i : string * vec) (m : nat)
    (h : heap) : Prop :=
  extends h0 h /\ length h = L + n + n /\
  forall (j : nat) (c_j : string * vec), t !! j = Some c_j ->
    let rows' := if decide (j < m) then rows ++ [c_i] else rows in
    h !! (L + j) = Some (corr_column weighted_spearman rows' c_j) /\
    h !! (L + n + j) = Some (corr_column spearman rows' c_j).

Lemma cell_spec (rows : list (string * vec)) (c_i c_j : string * vec) (j : nat)
      (h : heap) :
  c_i ∈ t -> t !! j = Some c_j -> cells_inv rows c_i j h ->
  exists h', cell weighted_spearman spearman summary_corrs dict_rw dict_rs c_i.1 h c_j.1
             = Some h' /\ cells_inv rows c_i (S j) h'.
Proof.
  intros Hi Hj (He & Hlen & Hcells).
  assert (Hjn : j < n) by (by eapply lookup_lt_Some).
  assert (Hjt : c_j ∈ t) by (by eapply list_elem_of_lookup_2).
  assert (Hkey : t.*1 !! j = Some c_j.1) by (by rewrite list_lookup_fmap, Hj).
  destruct (Hcells j c_j Hj) as [Hrw Hrs].
  rewrite decide_False in Hrw, Hrs by lia.
  unfold cell.
  rewrite (series_read h0 h summary_corrs t c_i Ht Hnd Hi He).
  rewrite (series_read h0 h summary_corrs t c_j Ht Hnd Hjt He).
  cbn [mbind option_bind].
  unfold append at 2. rewrite (dict_getitem_zip _ L j _ Hnd Hkey).
  cbn [mbind option_bind]. rewrite Hrw. cbn [mbind option_bind].
  set (h1 := <[L + j := _]> h).
  assert (He1 : extends h0 h1) by (apply insert_extends; [done|lia]).
  rewrite (series_read h0 h1 summary_corrs t c_i Ht Hnd Hi He1).
  rewrite (series_read h0 h1 summary_corrs t c_j Ht Hnd Hjt He1).
  cbn [mbind option_bind].
  unfold append. rewrite (dict_getitem_zip _ (L + n) j _ Hnd Hkey).
  cbn [mbind option_bind].
  assert (Hrs1 : h1 !! (L + n + j) = Some (corr_column spearman rows c_j)).
  { unfold h1. rewrite list_lookup_insert_ne by lia. exact Hrs. }
  rewrite Hrs1. cbn [mbind option_bind].
  eexists. split; [done|].
  split; [apply insert_extends; [done|lia]|].
  split; [unfold h1; by rewrite !length_insert|].
  intros j' c' Hj'. simpl.
  assert (Hj'n : j' < n) by (by eapply lookup_lt_Some).
  destruct (Hcells j' c' Hj') as [Hrw' Hrs'].
  destruct (decide (j' = j)) as [->|Hne].
  - rewrite Hj in Hj'. injection Hj' as <-.
    rewrite decide_True by lia. unfold corr_column. rewrite !map_app. simpl.
    split.
    + rewrite list_lookup_insert_ne by lia. unfold h1.
      rewrite list_lookup_insert_eq by lia. done.
    + rewrite list_lookup_insert_eq by (unfold h1; rewrite length_insert; lia). done.
  - rewrite !list_lookup_insert_ne by lia. unfold h1.
    rewrite !list_lookup_insert_ne by lia.
    destruct (decide (j' < j)) as [Hlt|Hge].
    + rewrite decide_True by lia. done.
    + rewrite decide_False by lia. done.
Qed.

Lemma inner_loop (rows : list (string * vec)) (c_i : string * vec) (todo : list (string * vec)) :
  forall (done : list (string * vec)) (h : heap),
  c_i ∈ t -> t = done ++ todo -> cells_inv rows c_i (length done) h ->
  exists h',
    for_each (cell weighted_spearman spearman summary_corrs dict_rw dict_rs c_i.1)
             h todo.*1 = Some h' /\
    cells_inv rows c_i n h'.
Proof.
  induction todo as [|c_j todo IH]; intros done h Hi Hsplit Hinv.
  - exists h. split; [done|]. rewrite Hsplit, app_nil_r. exact Hinv.
  - assert (Hj : t !! length done = Some c_j).
    { rewrite Hsplit. by apply list_lookup_middle. }
    destruct (cell_spec rows c_i c_j (length done) h Hi Hj Hinv) as (h1 & Hc & Hinv1).
    simpl. rewrite Hc. cbn [mbind option_bind].
    apply (IH (done ++ [c_j])); [done| |].
    + by rewrite <- (assoc_L (++)).
    + rewrite length_app. simpl. by rewrite Nat.add_1_r.
Qed.

(** After the rows [rows], every list holds one entry per row. *)
Definition rows_inv (rows : list (string * vec)) (h : heap) : Prop :=
  extends h0 h /\ length h = L + n + n /\
  forall (j : nat) (c_j : string * vec), t !! j = Some c_j ->
    h !! (L + j) = Some (corr_column weighted_spearman rows c_j) /\
    h !! (L + n + j) = Some (corr_column spearman rows c_j).

Lemma outer_loop (todo : list (string * vec)) :
  forall (rows : list (string * vec)) (h : heap),
  (forall c, c ∈ todo -> c ∈ t) -> rows_inv rows h ->
  exists h',
    for_each
      (fun h i =>
         for_each (cell weighted_spearman spearman summary_corrs dict_rw dict_rs i)
                  h t.*1)
      h todo.*1 = Some h' /\
    rows_inv (rows ++ todo) h'.
Proof.
  induction todo as [|c_i todo IH]; intros rows h Hsub (He & Hlen & Hcells).
  - exists h. split; [done|]. by rewrite app_nil_r.
  - assert (Hi : c_i ∈ t) by (apply Hsub; by left).
    destruct (inner_loop rows c_i t [] h Hi eq_refl) as (h1 & Hrun & He1 & Hlen1 & Hc1).
    { split_and!; [done..|]. intros j c_j Hj. cbv zeta.
      rewrite decide_False by (simpl; lia). by apply Hcells. }
    simpl. rewrite Hrun. cbn [mbind option_bind].
    destruct (IH (rows ++ [c_i]) h1) as (h' & Hrest & Hinv').
    + intros c Hc. apply Hsub. by right.
    + split_and!; [done..|]. intros j c_j Hj.
      pose proof (Hc1 j c_j Hj) as Hc. cbv zeta in Hc.
      rewrite decide_True in Hc by (by eapply lookup_lt_Some). exact Hc.
    + exists h'. split; [done|]. by rewrite <- (assoc_L (++)) in Hinv'.
Qed.

End Loops.

Lemma DataFrame_from_dict_spec (h : heap) (d : Create_dictionary) (idx : list string)
      (tab : list (string * vec)) :
  read_columns h d = Some tab ->
  Forall (fun c => length c.2 = length idx) tab ->
  exists h' df,
    DataFrame_from_dict h d idx = Some (h', df) /\ extends h h' /\
    index df = idx /\ read_frame h' df = Some tab /\ (columns df).*1 = tab.*1.
Proof.
  intros Hr Hall. unfold DataFrame_from_dict. rewrite Hr. cbn [mbind option_bind].
  rewrite decide_True by done.
  destruct (copy_columns_Some _ _ _ Hr) as [[h' cols] Hc]. rewrite Hc.
  destruct (copy_columns_spec _ _ _ _ _ Hr Hc) as (He & _ & Hread).
  exists h', (mkDataFrame idx cols). split_and!; [done..|].
  by eapply read_columns_labels.
Qed.

Lemma set_columns_same (df : DataFrame) : set_columns df (columns df).*1 = Some df.
Proof.
  unfold set_columns. rewrite decide_True by (by rewrite length_fmap).
  destruct df as [idx cols]. simpl. by rewrite zip_fst_snd.
Qed.

Lemma zip_labels {A : Type} (f : string * vec -> A) (t : list (string * vec)) :
  zip t.*1 (map f t) = map (fun c => (c.1, f c)) t.
Proof. induction t as [|c t IH]; [done|]. simpl. f_equal. exact IH. Qed.

Lemma corr_table_labels (corr : vec -> vec -> R) (t : list (string * vec)) :
  (corr_table corr t).*1 = t.*1.
Proof. unfold corr_table. rewrite <- list_fmap_compose. by apply list_fmap_ext. Qed.

Lemma heatmaps_run (weighted_spearman spearman : vec -> vec -> R)
        (h : heap) (summary_corrs : DataFrame) (t : list (string * vec)) :
  read_frame h summary_corrs = Some t -> NoDup t.*1 ->
  exists (h' : heap) (df_rw df_rs : DataFrame),
    heatmaps weighted_spearman spearman h summary_corrs = Some (h', df_rw, df_rs) /\
    extends h h' /\
    index df_rw = reverse t.*1 /\ index df_rs = reverse t.*1 /\
    read_frame h' df_rw = Some (corr_table weighted_spearman t) /\
    read_frame h' df_rs = Some (corr_table spearman t).
Proof.
  intros Ht Hnd. unfold heatmaps.
  rewrite (read_columns_labels _ _ _ Ht).
  rewrite add_empty_lists_spec; [|done|intros el _; apply not_elem_of_nil].
  unfold Create_dictionary_init. rewrite app_nil_l.
  set (keys := t.*1). set (n := length keys).
  assert (Hn : n = length t) by (unfold n, keys; by rewrite length_fmap).
  set (h1 := h ++ replicate n []).
  assert (Hr1 : read_columns h1 (zip keys (seq (length h) n))
                = Some (zip keys (replicate n []))).
  { apply read_columns_zip; [by rewrite length_replicate|].
    intros j v [-> Hj]%lookup_replicate. unfold h1.
    rewrite lookup_app_r by lia.
    replace (length h + j - length h) with j by lia.
    by apply lookup_replicate_2. }
  rewrite (copy_columns_exact _ _ _ Hr1). cbn [mbind option_bind].
  rewrite fst_zip, snd_zip by (rewrite ?length_replicate, ?length_seq; unfold n; lia).
  rewrite length_zip, length_seq, Nat.min_id.
  assert (Hl1 : length h1 = length h + length t)
    by (unfold h1; rewrite length_app, length_replicate; lia).
  rewrite Hl1.
  set (h2 := h1 ++ replicate n []).
  assert (Hinv : rows_inv weighted_spearman spearman h t [] h2).
  { split_and!.
    - intros a v Ha. unfold h2, h1. by do 2 apply lookup_app_l_Some.
    - unfold h2. rewrite length_app, length_replicate. lia.
    - intros j c_j Hj. assert (j < n) by (rewrite Hn; by eapply lookup_lt_Some).
      unfold h2, corr_column. simpl. split.
      + rewrite lookup_app_l by lia. unfold h1. rewrite lookup_app_r by lia.
        replace (length h + j - length h) with j by lia.
        by apply lookup_replicate_2.
      + rewrite lookup_app_r by lia.
        replace (length h + length t + j - length h1) with j by lia.
        by apply lookup_replicate_2. }
  destruct (outer_loop weighted_spearman spearman h summary_corrs t Ht Hnd
              (reverse t) [] h2) as (h3 & Hloop & He3 & Hlen3 & Hcells);
    [intros c Hc; exact (proj1 (elem_of_reverse c t) Hc)|exact Hinv|].
  rewrite fmap_reverse in Hloop. fold keys in Hloop. unfold n.
  rewrite Hloop. cbn [mbind option_bind]. rewrite app_nil_l in Hcells.
  assert (Hrw : read_columns h3 (zip keys (seq (length h) (length keys)))
                = Some (corr_table weighted_spearman t)).
  { unfold corr_table. rewrite <- zip_labels.
    apply read_columns_zip; [by rewrite length_map, length_fmap|].
    intros j v Hv. rewrite list_lookup_fmap in Hv.
    destruct (t !! j) as [c_j|] eqn:Hj; [|done]. injection Hv as <-.
    by apply (Hcells j c_j Hj). }
  assert (Hrs : read_columns h3 (zip keys (seq (length h + length t) (length keys)))
                = Some (corr_table spearman t)).
  { unfold corr_table. rewrite <- zip_labels.
    apply read_columns_zip; [by rewrite length_map, length_fmap|].
    intros j v Hv. rewrite list_lookup_fmap in Hv.
    destruct (t !! j) as [c_j|] eqn:Hj; [|done]. injection Hv as <-.
    by apply (Hcells j c_j Hj). }
  assert (Hshape : forall corr, Forall (fun c : string * vec => length c.2 = length (reverse keys))
                                  (corr_table corr t)).
  { intros corr. unfold corr_table. apply Forall_fmap, Forall_forall. intros c _. simpl.
    unfold corr_column, keys. by rewrite length_map, !length_reverse, length_fmap. }
  destruct (DataFrame_from_dict_spec h3 _ (reverse keys) _ Hrw (Hshape _))
    as (h4 & df_rw & Hdf1 & He4 & Hidx1 & Hread1 & Hlab1).
  rewrite Hdf1. cbn [mbind option_bind].
  rewrite corr_table_labels in Hlab1. fold keys in Hlab1.
  assert (Hs1 : set_columns df_rw keys = Some df_rw)
    by (rewrite <- Hlab1; apply set_columns_same).
  rewrite Hs1. cbn [mbind option_bind].
  destruct (DataFrame_from_dict_spec h4 _ (reverse keys) _
              (read_columns_extends _ _ _ _ He4 Hrs) (Hshape _))
    as (h5 & df_rs & Hdf2 & He5 & Hidx2 & Hread2 & Hlab2).
  rewrite Hdf2. cbn [mbind option_bind].
  rewrite corr_table_labels in Hlab2. fold keys in Hlab2.
  assert (Hs2 : set_columns df_rs keys = Some df_rs)
    by (rewrite <- Hlab2; apply set_columns_same).
  rewrite Hs2. cbn [mbind option_bind].
  exists h5, df_rw, df_rs. split_and!; [done| |done|done| |done].
  - eapply extends_trans; [exact He3|]. by eapply extends_trans.
  - by eapply read_columns_extends.
Qed.

(** X4.  The two tables of correlations.  For a summary with distinct labels
    the stage goes through; both tables have the labels of the summary as
    columns, in order, and the same labels in reverse order as index; the
    entry in the row of [i] and the column of [j] is the coefficient of the
    columns [i] and [j] of the summary, the weighted one in the first table
    and the plain one in the second; and the store it started from is kept. *)
Theorem heatmaps_tables (weighted_spearman spearman : vec -> vec -> R)
        (h : heap) (summary_corrs : DataFrame) (t : list (string * vec)) :
  read_frame h summary_corrs = Some t -> NoDup t.*1 ->
  exists (h' : heap) (df_rw df_rs : DataFrame),
    heatmaps weighted_spearman spearman h summary_corrs = Some (h', df_rw, df_rs) /\
    extends h h' /\
    index df_rw = reverse t.*1 /\ index df_rs = reverse t.*1 /\
    read_frame h' df_rw = Some (corr_table weighted_spearman t) /\
    read_frame h' df_rs = Some (corr_table spearman t).
Proof. apply heatmaps_run. Qed.

(** * The run with its tables of correlations, lines 112-290 *)

Section Report.

Variable country_names : list string.
Variable read_csv : string -> matrix.
Variable critic_weighting : matrix -> vec.
Variable topsis : matrix -> vec -> list Z -> vec.
Variable rank_preferences : vec -> bool -> list Z.
Variable daria : DARIA.
Variable weighted_spearman : vec -> vec -> R.
Variable spearman : vec -> vec -> R.

Local Abbreviation main' :=
  (main country_names read_csv critic_weighting topsis rank_preferences daria).
Local Abbreviation summary :=
  (summary_table country_names read_csv critic_weighting topsis rank_preferences daria).

(** [main] up to the two tables that are drawn as heat maps. *)
Definition report : option (State * heap * DataFrame * DataFrame) :=
  st ← main';
  '(h, df_new_heatmap_rw, df_new_heatmap_rs) ←
    heatmaps weighted_spearman spearman (bufs st) (summary_corrs st);
  Some (st, h, df_new_heatmap_rw, df_new_heatmap_rs).

Lemma summary_labels :
  summary.*1 = ["TOPSIS 2020"; "TOPSIS 2021"; "TOPSIS 2022"; "DARIA-TOPSIS"]%string.
Proof. reflexivity. Qed.

Lemma summary_NoDup : NoDup summary.*1.
Proof. rewrite summary_labels. apply (bool_decide_unpack _). by vm_compute. Qed.

(** X6.  Once the tables of [main] are there, the correlations never fail: both
    tables have the four rankings as columns, in the order TOPSIS 2020,
    2021, 2022, DARIA-TOPSIS, and as rows in the opposite order, and hold
    the coefficients of every pair of rankings. *)
Theorem report_tables (st : State) :
  main' = Some st ->
  exists (h : heap) (df_rw df_rs : DataFrame),
    report = Some (st, h, df_rw, df_rs) /\
    extends (bufs st) h /\
    index df_rw
    = ["DARIA-TOPSIS"; "TOPSIS 2022"; "TOPSIS 2021"; "TOPSIS 2020"]%string /\
    index df_rs
    = ["DARIA-TOPSIS"; "TOPSIS 2022"; "TOPSIS 2021"; "TOPSIS 2020"]%string /\
    read_frame h df_rw = Some (corr_table weighted_spearman summary) /\
    read_frame h df_rs = Some (corr_table spearman summary).
Proof.
  intros Hm.
  destruct (main_summary _ _ _ _ _ _ st Hm) as [Hsum _].
  destruct (heatmaps_run weighted_spearman spearman _ _ _ Hsum summary_NoDup)
    as (h & df_rw & df_rs & Hh & He & Hi1 & Hi2 & Hr1 & Hr2).
  exists h, df_rw, df_rs. unfold report. rewrite Hm. cbn [mbind option_bind].
  rewrite Hh. rewrite summary_labels in Hi1, Hi2. by split_and!.
Qed.

End Report.

(** * The keys of the dictionary *)

(** X7.  [add] and the lookup of a key: the key added is bound to the value,
    the other keys keep theirs, a key that was there keeps its place and a
    new key comes last. *)
Theorem add_lookup (d : Create_dictionary) (key : string) (value : addr) :
  dict_getitem (add d key value) key = Some value /\
  (forall k, k <> key -> dict_getitem (add d key value) k = dict_getitem d k) /\
  (key ∈ d.*1 -> (add d key value).*1 = d.*1) /\
  (key ∉ d.*1 -> (add d key value).*1 = d.*1 ++ [key]).
Proof.
  unfold add, dict_getitem.
  induction d as [|[k0 a0] d (IH1 & IH2 & IH3 & IH4)]; simpl.
  - rewrite bool_decide_eq_true_2 by done. split_and!.
    + done.
    + intros k Hk. by rewrite bool_decide_eq_false_2 by congruence.
    + by intros ?%elem_of_nil.
    + done.
  - case_decide as Hk0; simpl.
    + subst k0. rewrite bool_decide_eq_true_2 by done. split_and!.
      * done.
      * intros k Hk. by rewrite !bool_decide_eq_false_2 by congruence.
      * done.
      * intros Hnotin. exfalso. apply Hnotin. by left.
    + rewrite bool_decide_eq_false_2 by done. split_and!.
      * done.
      * intros k Hk. case_bool_decide; [done|]. by apply IH2.
      * intros [?|Hin]%elem_of_cons; [congruence|]. f_equal. by apply IH3.
      * intros [_ Hnotin]%not_elem_of_cons. f_equal. by apply IH4.
Qed.

(** * The plotting helpers, lines 31-109

    [plot_barplot] and [draw_heatmap] compute a few values and hand them to
    pandas, matplotlib and seaborn.  The model keeps the calls to these
    libraries, in the order of the source and with the arguments that the
    helper computes.  Whether a call raises is the library's matter and a
    parameter here; a helper stops at the first call that raises. *)

(** A Python [str] is a sequence of characters (code points); this is what
    [title[-4:]] counts. *)
Abbreviation str := (list N).

(** A string literal of the source: they hold ASCII characters only. *)
Definition literal (s : string) : str :=
  Ascii.N_of_ascii <$> String.list_ascii_of_string s.

(** [np.arange(start, stop, step)] on integers, for a positive step. *)
Definition arange (start stop step : Z) : list Z :=
  (fun k => (start + Z.of_nat k * step)%Z)
    <$> seq 0 (Z.to_nat ((stop - start + step - 1) / step)).

(** [title[-4:]]: the last four characters, or the whole title when it has
    fewer. *)
Definition last4 (title : str) : str := drop (length title - 4) title.

(** [title.replace(old, "")] for a single character [old]. *)
Definition remove_char (old : N) (title : str) : str :=
  filter (fun c => c <> old) title.

Definition dollar : N := Eval cbv in Ascii.N_of_ascii "$".

(** The calls of the two helpers, with the arguments that vary. *)
Inductive call : Type :=
  (* df_plot.plot(kind='bar', width = width, stacked=stacked, ...) *)
  | DataFrame_plot (df_plot : DataFrame) (width : R) (stacked : bool)
  | ax_set_xlabel (x_name : str)
  | ax_set_ylabel (y_name : str)
  | ax_set_yticks (ticks : list Z)
  (* ax.set_xticklabels(df_plot.index, rotation = 'horizontal') *)
  | ax_set_xticklabels (labels : list string)
  | ax_tick_params
  (* plt.legend(..., ncol=ncol, ..., title = title, fontsize = 11) *)
  | plt_legend (ncol : nat) (title : str)
  | ax_grid
  | ax_set_axisbelow
  | plt_tight_layout
  | plt_savefig (file : str)
  | plt_show
  | plt_figure
  | sns_set
  (* sns.heatmap(df_new_heatmap, annot=True, fmt=".4f", ...) *)
  | sns_heatmap (df_new_heatmap : DataFrame)
  | plt_yticks
  | plt_xlabel (label : str)
  | plt_title (title : str).

Section Library.

(** [raises made c]: after the calls [made], the call [c] raises. *)
Variable raises : list call -> call -> bool.

(** The calls are made one after the other until one raises: the calls
    that returned, and whether all of them did. *)
Fixpoint perform (made calls : list call) : list call * bool :=
  match calls with
  | [] => (made, true)
  | c :: rest =>
      if raises made c then (made, false) else perform (made ++ [c]) rest
  end.

(** Lines 53-80. *)
Definition plot_barplot (df_plot : DataFrame) (x_name y_name title : str)
  : list call * bool :=
  (* list_rank = np.arange(1, len(df_plot) + 2, 2) *)
  let list_rank := arange 1 (Z.of_nat (length (index df_plot)) + 2) 2 in
  (* if x_name == 'Alternatives': stacked, width, ncol = False, 0.8, 2
     else: stacked, width, ncol = True, 0.6, 5 *)
  let alternatives := bool_decide (x_name = literal "Alternatives") in
  let stacked := if alternatives then false else true in
  let width := if alternatives then 0.8%R else 0.6%R in
  let ncol := if alternatives then 2 else 5 in
  perform []
    ([DataFrame_plot df_plot width stacked;
      ax_set_xlabel x_name;
      ax_set_ylabel y_name]
     (* if x_name == 'Alternatives': ax.set_yticks(list_rank) *)
     ++ (if alternatives then [ax_set_yticks list_rank] else [])
     ++ [ax_set_xticklabels (index df_plot);
         ax_tick_params;
         plt_legend ncol title;
         ax_grid;
         ax_set_axisbelow;
         plt_tight_layout;
         (* plt.savefig('results/bar_chart_' + title[-4:] + '.png') *)
         plt_savefig (literal "results/bar_chart_" ++ last4 title ++ literal ".png");
         plt_show]).

(** Lines 99-109. *)
Definition draw_heatmap (df_new_heatmap : DataFrame) (title : str)
  : list call * bool :=
  perform []
    [plt_figure;
     sns_set;
     sns_heatmap df_new_heatmap;
     plt_yticks;
     plt_xlabel (literal "Methods");
     (* plt.title('Correlation: ' + title) *)
     plt_title (literal "Correlation: " ++ title);
     plt_tight_layout;
     (* title = title.replace("$", "")
        plt.savefig('./results/' + 'correlations_' + title + '.png') *)
     plt_savefig (literal "./results/" ++ literal "correlations_"
                  ++ remove_char dollar title ++ literal ".png");
     plt_show].

Lemma perform_take (made calls : list call) :
  exists k : nat, (perform made calls).1 = made ++ take k calls.
Proof.
  revert made. induction calls as [|c rest IH]; intros made; simpl.
  - exists 0. by rewrite app_nil_r.
  - destruct (raises made c).
    + exists 0. by rewrite app_nil_r.
    + destruct (IH (made ++ [c])) as [k Hk]. exists (S k).
      rewrite Hk. simpl. by rewrite <- app_assoc.
Qed.

Lemma perform_all (made calls : list call) :
  (perform made calls).2 = true -> (perform made calls).1 = made ++ calls.
Proof.
  revert made. induction calls as [|c rest IH]; intros made; simpl.
  - by rewrite app_nil_r.
  - destruct (raises made c); [done|].
    intros H. rewrite (IH _ H). by rewrite <- app_assoc.
Qed.

End Library.

Lemma arange_odd (n : nat) (x : Z) :
  x ∈ arange 1 (Z.of_nat n + 2) 2 <->
  (1 <= x <= Z.of_nat n + 1)%Z /\ Z.odd x = true.
Proof.
  unfold arange. rewrite list_elem_of_fmap. setoid_rewrite elem_of_seq.
  replace (Z.of_nat n + 2 - 1 + 2 - 1)%Z with (Z.of_nat n + 2)%Z by lia.
  split.
  - intros (k & -> & _ & Hk). split.
    + assert (Z.of_nat k < (Z.of_nat n + 2) / 2)%Z by lia.
      pose proof (Z.mul_div_le (Z.of_nat n + 2) 2). lia.
    + rewrite (Z.mul_comm (Z.of_nat k) 2). by rewrite Z.odd_add_mul_2.
  - intros [Hx Hodd]. exists (Z.to_nat (x / 2)).
    rewrite (Zodd_bool_iff x) in Hodd. apply Zodd_ex in Hodd as [m ->].
    replace ((2 * m + 1) / 2)%Z with m by (apply Z.div_unique with 1%Z; lia).
    split; [lia|]. split; [lia|].
    assert (m + 1 <= (Z.of_nat n + 2) / 2)%Z; [|lia].
    apply Z.div_le_lower_bound; lia.
Qed.

(** A call that returned is one of the calls of the helper, and the calls
    before it returned as well. *)
Lemma perform_lookup (raises : list call -> call -> bool) (calls : list call) (c : call) :
  c ∈ (perform raises [] calls).1 ->
  exists i : nat,
    calls !! i = Some c /\
    forall (j : nat) (c' : call),
      j <= i -> calls !! j = Some c' -> c' ∈ (perform raises [] calls).1.
Proof.
  destruct (perform_take raises [] calls) as [k ->]. simpl.
  intros (i & Hi & Hlt)%elem_of_take. exists i. split; [done|].
  intros j c' Hj Hc'. apply elem_of_take. exists j. split; [done|lia].
Qed.

Lemma perform_returns (raises : list call -> call -> bool) (calls : list call) (c : call) :
  (perform raises [] calls).2 = true -> c ∈ calls -> c ∈ (perform raises [] calls).1.
Proof. intros Hok Hc. by rewrite (perform_all raises [] calls Hok). Qed.

(** X8.  The ticks of the axis of ranks.  [plot_barplot] sets them only for the
    chart of the alternatives, after the bars have been drawn without an
    exception, and they are exactly the odd numbers from 1 to the number of
    rows plus one, so the last tick is the last rank or the number after
    it.  When the helper returns for that chart, the ticks have been set. *)
Theorem plot_barplot_ticks (raises : list call -> call -> bool)
        (df_plot : DataFrame) (x_name y_name title : str) :
  let run := plot_barplot raises df_plot x_name y_name title in
  (forall ticks : list Z,
     ax_set_yticks ticks ∈ run.1 ->
     x_name = literal "Alternatives" /\
     DataFrame_plot df_plot 0.8 false ∈ run.1 /\
     forall x : Z,
       x ∈ ticks <->
       (1 <= x <= Z.of_nat (length (index df_plot)) + 1)%Z /\ Z.odd x = true) /\
  (run.2 = true -> x_name = literal "Alternatives" ->
   exists ticks : list Z, ax_set_yticks ticks ∈ run.1).
Proof.
  intros run. subst run. unfold plot_barplot. split.
  - intros ticks Hin. apply perform_lookup in Hin as (i & Hi & Hbefore).
    case_bool_decide as Hx.
    + split; [done|]. split; [by apply (Hbefore 0); [lia|]|].
      do 3 (destruct i as [|i]; [discriminate Hi|]).
      destruct i as [|i].
      * injection Hi as <-. intros x. apply arange_odd.
      * do 8 (destruct i as [|i]; [discriminate Hi|]). discriminate Hi.
    + do 11 (destruct i as [|i]; [discriminate Hi|]). discriminate Hi.
  - intros Hok Hx. eexists. apply perform_returns; [exact Hok|].
    rewrite bool_decide_eq_true_2 by done.
    do 3 right. left.
Qed.




(** The two files of [main], lines 293 and 296. *)
Lemma heatmap_files :
  literal "./results/" ++ literal "correlations_"
    ++ remove_char dollar (literal "$r_w$") ++ literal ".png"
  = literal "./results/correlations_r_w.png" /\
  literal "./results/" ++ literal "correlations_"
    ++ remove_char dollar (literal "$r_s$") ++ literal ".png"
  = literal "./results/correlations_r_s.png".
Proof. split; reflexivity. Qed.

(** X10.  The file of a heat map: when [draw_heatmap] saves the chart, the name
    of the file is the title without its dollar signs between
    [./results/correlations_] and [.png], so it has no dollar sign, while
    the title set on the chart before is the whole title; the chart is
    saved whenever the helper returns; and a title without dollar signs is
    used as it is. *)
Theorem draw_heatmap_file (raises : list call -> call -> bool)
        (df_new_heatmap : DataFrame) (title : str) :
  let run := draw_heatmap raises df_new_heatmap title in
  let file := literal "./results/" ++ literal "correlations_"
              ++ remove_char dollar title ++ literal ".png" in
  (forall f : str,
     plt_savefig f ∈ run.1 ->
     f = file /\ (dollar ∉ f) /\ plt_title (literal "Correlation: " ++ title) ∈ run.1) /\
  (run.2 = true -> plt_savefig file ∈ run.1) /\
  (dollar ∉ title ->
   file = literal "./results/correlations_" ++ title ++ literal ".png").
Proof.
  intros run file.
  assert (Hfile : dollar ∉ file).
  { unfold file. rewrite !not_elem_of_app. split_and!.
    - apply (bool_decide_unpack _). by vm_compute.
    - apply (bool_decide_unpack _). by vm_compute.
    - unfold remove_char. intros [Hne _]%list_elem_of_filter. by apply Hne.
    - apply (bool_decide_unpack _). by vm_compute. }
  assert (Hplain : dollar ∉ title ->
            file = literal "./results/correlations_" ++ title ++ literal ".png").
  { intros Hno. unfold file, remove_char.
    replace (filter (fun c => c <> dollar) title) with title; [done|].
    clear -Hno. induction title as [|c title IH]; [done|].
    apply not_elem_of_cons in Hno as [Hne Hno].
    rewrite filter_cons_True by done. f_equal. by apply IH. }
  subst run. unfold draw_heatmap. fold file. clearbody file. split_and!.
  - intros f Hin. apply perform_lookup in Hin as (i & Hi & Hbefore).
    do 7 (destruct i as [|i]; [discriminate Hi|]).
    destruct i as [|i]; [|destruct i as [|i]; discriminate Hi].
    injection Hi as <-. split; [done|]. split; [done|].
    by apply (Hbefore 5); [lia|].
  - intros Hok. apply perform_returns; [exact Hok|].
    repeat (first [by left | right]).
  - done.
Qed.


(** ** The colours of the lines, lines 165-183 *)

Section Colours.

Variable colour : Type.
(** [cm.Set1], [cm.Set2], [cm.tab10] and [cm.Pastel2] *)
Variable Set1 Set2 tab10 Pastel2 : nat -> colour.

Definition color : list colour :=
  (Set1 <$> seq 0 9) ++ (Set2 <$> seq 0 8) ++ (tab10 <$> seq 0 10)
  ++ (Pastel2 <$> seq 0 8).

(** [for i in range(rankings_t.shape[0]): c = color[i] ...]: the colours
    of the lines of the countries; [IndexError] is [None]. *)
Definition line_colours (rows : nat) : option (list colour) :=
  mapM (fun i => color !! i) (seq 0 rows).

(** X11.  The chart of the annual rankings has a colour for 35 countries: with
    more rows than that, the loop fails at the first country without one. *)
Theorem line_colours_bound (rows : nat) : is_Some (line_colours rows) <-> rows <= 35.
Proof.
  unfold line_colours. rewrite mapM_is_Some, Forall_forall.
  assert (Hlen : length color = 35) by reflexivity.
  split.
  - intros Hall. destruct (decide (rows <= 35)) as [|Hgt]; [done|].
    destruct (Hall 35) as [c Hc]; [apply elem_of_seq; lia|].
    apply lookup_lt_Some in Hc. lia.
  - intros Hle i Hi%elem_of_seq. apply lookup_lt_is_Some_2. lia.
Qed.

End Colours.

(** * The small run, to its end *)

(** The products [G * dir] and the scores [S + G * dir] that the in-place
    update of [Sample.daria] computes. *)
Definition sample_products : vec := zip_with Rmult [0.1; 0.1]%R Sample.directions.
Definition sample_scores : vec := zip_with Rplus Sample.means sample_products.

(** The state at the end of the run: the buffers 11 to 16 are those of the
    final stage (the copies, of which 11 is overwritten with the products,
    and [S], overwritten with the scores); 17 is the column of the final
    ranks in the summary; 18 and 19 are the columns of the results. *)
Definition sample_end : State := {|
  bufs := bufs Sample.after_variability
          ++ [sample_products; Sample.directions;
              [0.2; 0.6]%R; [0.3; 0.5]%R; [0.4; 0.4]%R; sample_scores;
              [1; 2]%R; sample_scores; [1; 2]%R];
  preferences_t := preferences_t Sample.after_annual;
  rankings_t := rankings_t Sample.after_annual;
  summary_corrs :=
    mkDataFrame Sample.country_names
      [("TOPSIS 2020", 2); ("TOPSIS 2021", 5); ("TOPSIS 2022", 8);
       ("DARIA-TOPSIS", 17)]%string;
  df_varia_fin := df_varia_fin Sample.after_variability;
  results_final :=
    mkDataFrame Sample.country_names
      [("DARIA-TOPSIS pref", 18); ("DARIA-TOPSIS rank", 19)]%string |}.

Lemma sample_run :
  main Sample.country_names Sample.read_csv Sample.critic_weighting Sample.topsis
       Sample.rank_preferences Sample.daria
  = Some sample_end.
Proof. reflexivity. Qed.

Lemma main_tables_witness :
  read_frame (bufs sample_end) (preferences_t sample_end)
  = Some [("2020", [0.2; 0.6]); ("2021", [0.3; 0.5]); ("2022", [0.4; 0.4])]%string%R /\
  read_frame (bufs sample_end) (rankings_t sample_end)
  = Some [("2020", [1; 2]); ("2021", [1; 2]); ("2022", [1; 2])]%string%R /\
  read_frame (bufs sample_end) (summary_corrs sample_end)
  = Some [("TOPSIS 2020", [1; 2]); ("TOPSIS 2021", [1; 2]); ("TOPSIS 2022", [1; 2]);
          ("DARIA-TOPSIS", [1; 2])]%string%R /\
  read_frame (bufs sample_end) (df_varia_fin sample_end)
  = Some [("TOPSIS"%string, [0.1; 0.1]%R); ("TOPSIS dir"%string, Sample.directions)] /\
  read_frame (bufs sample_end) (results_final sample_end)
  = Some [("DARIA-TOPSIS pref"%string, sample_scores);
          ("DARIA-TOPSIS rank"%string, [1; 2]%R)].
Proof.
  exact (main_tables Sample.country_names Sample.read_csv Sample.critic_weighting
           Sample.topsis Sample.rank_preferences Sample.daria sample_end sample_run).
Defined.

Lemma main_ends_shapes_fit_witness :
  shapes_fit Sample.country_names Sample.read_csv Sample.critic_weighting
             Sample.topsis Sample.rank_preferences Sample.daria.
Proof.
  apply (main_ends_shapes_fit Sample.country_names Sample.read_csv
           Sample.critic_weighting Sample.topsis Sample.rank_preferences
           Sample.daria sample_end); [discriminate|exact sample_run].
Defined.

(** Two stand-ins for the coefficients. *)
Definition sample_rw (x y : vec) : R := (Rsum x - Rsum y)%R.
Definition sample_rs (x y : vec) : R := (Rsum x * Rsum y)%R.

Lemma report_tables_witness :
  exists (h : heap) (df_rw df_rs : DataFrame),
    report Sample.country_names Sample.read_csv Sample.critic_weighting Sample.topsis
           Sample.rank_preferences Sample.daria sample_rw sample_rs
    = Some (sample_end, h, df_rw, df_rs) /\
    extends (bufs sample_end) h /\
    index df_rw
    = ["DARIA-TOPSIS"; "TOPSIS 2022"; "TOPSIS 2021"; "TOPSIS 2020"]%string /\
    index df_rs
    = ["DARIA-TOPSIS"; "TOPSIS 2022"; "TOPSIS 2021"; "TOPSIS 2020"]%string /\
    read_frame h df_rw
    = Some (corr_table sample_rw
              (summary_table Sample.country_names Sample.read_csv
                 Sample.critic_weighting Sample.topsis Sample.rank_preferences
                 Sample.daria)) /\
    read_frame h df_rs
    = Some (corr_table sample_rs
              (summary_table Sample.country_names Sample.read_csv
                 Sample.critic_weighting Sample.topsis Sample.rank_preferences
                 Sample.daria)).
Proof.
  exact (report_tables Sample.country_names Sample.read_csv Sample.critic_weighting
           Sample.topsis Sample.rank_preferences Sample.daria sample_rw sample_rs
           sample_end sample_run).
Defined.

(** A summary of two rankings of two countries. *)
Definition two_rankings : DataFrame :=
  mkDataFrame ["PL"; "DE"]%string [("first", 0); ("second", 1)]%string.

Definition two_rankings_table : list (string * vec) :=
  [("first", [1; 2]); ("second", [2; 1])]%string%R.

Lemma two_rankings_NoDup : NoDup two_rankings_table.*1.
Proof. apply (bool_decide_unpack _). by vm_compute. Qed.

(** For two rankings the tables are two by two: the rows are [second],
    [first], the columns [first], [second]. *)
Lemma heatmaps_two_rankings :
  corr_table sample_rw two_rankings_table
  = [("first"%string,
      [sample_rw [2; 1] [1; 2]; sample_rw [1; 2] [1; 2]]%R);
     ("second"%string,
      [sample_rw [2; 1] [2; 1]; sample_rw [1; 2] [2; 1]]%R)].
Proof. reflexivity. Qed.

Lemma heatmaps_tables_witness :
  exists (h' : heap) (df_rw df_rs : DataFrame),
    heatmaps sample_rw sample_rs [[1; 2]; [2; 1]]%R two_rankings
    = Some (h', df_rw, df_rs) /\
    extends [[1; 2]; [2; 1]]%R h' /\
    index df_rw = ["second"; "first"]%string /\
    index df_rs = ["second"; "first"]%string /\
    read_frame h' df_rw = Some (corr_table sample_rw two_rankings_table) /\
    read_frame h' df_rs = Some (corr_table sample_rs two_rankings_table).
Proof.
  exact (heatmaps_tables sample_rw sample_rs [[1; 2]; [2; 1]]%R two_rankings
           two_rankings_table eq_refl two_rankings_NoDup).
Defined.

(** ** One cell of the tables of correlations *)

Lemma reverse_lookup_mirror {A : Type} (l : list A) (i : nat) (x : A) :
  l !! i = Some x -> reverse l !! (length l - 1 - i) = Some x.
Proof.
  intros Hi. assert (i < length l) by (by eapply lookup_lt_Some).
  rewrite reverse_lookup by lia. rewrite <- Hi. f_equal. lia.
Qed.

Lemma corr_table_cell (corr : vec -> vec -> R) (h : heap) (df : DataFrame)
      (t : list (string * vec)) (i j : nat) (c_i c_j : string * vec) :
  NoDup t.*1 -> read_frame h df = Some (corr_table corr t) ->
  t !! i = Some c_i -> t !! j = Some c_j ->
  exists col : vec,
    series h df c_j.1 = Some col /\
    col !! (length t - 1 - i) = Some (corr c_i.2 c_j.2).
Proof.
  intros Hnd Hr Hi Hj.
  exists (corr_column corr (reverse t) c_j). split.
  - apply (series_read h h df (corr_table corr t) (c_j.1, corr_column corr (reverse t) c_j));
      [done|by rewrite corr_table_labels| |apply extends_refl].
    unfold corr_table. apply list_elem_of_fmap.
    exists c_j. split; [done|]. by eapply list_elem_of_lookup_2.
  - unfold corr_column. rewrite list_lookup_fmap.
    by rewrite (reverse_lookup_mirror t i c_i Hi).
Qed.

(** X5.  In both tables the row of the ranking [i] is the row [n - 1 - i], [n]
    being the number of rankings, and in that row the column of the ranking
    [j] holds the coefficient of the rankings [i] and [j]; so the
    coefficients of the rankings with themselves run from the lower left
    to the upper right corner. *)
Theorem heatmaps_cell (weighted_spearman spearman : vec -> vec -> R)
        (h h' : heap) (summary_corrs df_rw df_rs : DataFrame)
        (t : list (string * vec)) (i j : nat) (c_i c_j : string * vec) :
  read_frame h summary_corrs = Some t -> NoDup t.*1 ->
  heatmaps weighted_spearman spearman h summary_corrs = Some (h', df_rw, df_rs) ->
  t !! i = Some c_i -> t !! j = Some c_j ->
  index df_rw !! (length t - 1 - i) = Some c_i.1 /\
  index df_rs !! (length t - 1 - i) = Some c_i.1 /\
  (exists col : vec,
     series h' df_rw c_j.1 = Some col /\
     col !! (length t - 1 - i) = Some (weighted_spearman c_i.2 c_j.2)) /\
  (exists col : vec,
     series h' df_rs c_j.1 = Some col /\
     col !! (length t - 1 - i) = Some (spearman c_i.2 c_j.2)).
Proof.
  intros Ht Hnd Hh Hi Hj.
  destruct (heatmaps_run weighted_spearman spearman h summary_corrs t Ht Hnd)
    as (h1 & rw & rs & Hh1 & _ & Hi1 & Hi2 & Hr1 & Hr2).
  rewrite Hh in Hh1. injection Hh1 as <- <- <-.
  assert (Hlab : reverse t.*1 !! (length t - 1 - i) = Some c_i.1).
  { rewrite <- (length_fmap fst t). apply reverse_lookup_mirror.
    by rewrite list_lookup_fmap, Hi. }
  rewrite Hi1, Hi2. split_and!; [done|done| |].
  - by eapply corr_table_cell.
  - by eapply corr_table_cell.
Qed.

Lemma heatmaps_cell_witness :
  exists (h' : heap) (df_rw df_rs : DataFrame),
    heatmaps sample_rw sample_rs [[1; 2]; [2; 1]]%R two_rankings
    = Some (h', df_rw, df_rs) /\
    index df_rw !! (2 - 1 - 0) = Some "first"%string /\
    index df_rs !! (2 - 1 - 0) = Some "first"%string /\
    (exists col : vec,
       series h' df_rw "second" = Some col /\
       col !! (2 - 1 - 0) = Some (sample_rw [1; 2] [2; 1])%R) /\
    (exists col : vec,
       series h' df_rs "second" = Some col /\
       col !! (2 - 1 - 0) = Some (sample_rs [1; 2] [2; 1])%R).
Proof.
  assert (Hh : heatmaps sample_rw sample_rs [[1; 2]; [2; 1]]%R two_rankings = Some _)
    by reflexivity.
  match type of Hh with _ = Some (?h', ?rw, ?rs) => exists h', rw, rs end.
  split; [exact Hh|].
  exact (heatmaps_cell sample_rw sample_rs [[1; 2]; [2; 1]]%R _ two_rankings _ _
           two_rankings_table 0 1 ("first"%string, [1; 2]%R) ("second"%string, [2; 1]%R)
           eq_refl two_rankings_NoDup Hh eq_refl eq_refl).
Defined.
